(** * Credential authentication in the full-stack boilerplates

    A shallow embedding of the authentication code of the repository's
    Flask/React starter kits:

    - [FullstackAiApp]: backend/app.py of "AI Fullstack Boilerplate with JWT
      Auth" (bcrypt hashes, tokens with a 30 minute expiry);
    - [AiFullstackApp]: backend/app.py and backend/auth.py of "AI Fullstack
      App (Spam Detector + DB Logging + JWT Auth)" (plaintext passwords,
      tokens without expiry);
    - [BasicAuthApp]: backend/auth.py of the HTTP basic-auth starter;
    - [ReactClient]: src/App.js of the FastAPI + React boilerplate.

    Python exceptions are values of [exn]; a computation that may raise is a
    [result].  The libraries the code calls (PyJWT, bcrypt, sqlite3) are
    modelled at the level of the calls the code makes. *)

From Stdlib Require Import ZArith Ascii String.
From stdpp Require Import gmap strings list.

Local Open Scope Z_scope.

(** ** Python exceptions and results *)

Inductive exn : Type :=
  | IndexError
  | KeyError
  | DecodeError
  | InvalidAlgorithmError
  | InvalidSignatureError
  | ExpiredSignatureError
  | IntegrityError
  | OperationalError
  | AttributeError
  | ValueError.

Inductive result (A : Type) : Type :=
  | Ok (a : A)
  | Raise (e : exn).
Arguments Ok {A} a.
Arguments Raise {A} e.

Global Instance exn_eq_dec : EqDecision exn.
Proof. solve_decision. Defined.

Global Instance result_ret : MRet result := fun A a => Ok a.

Global Instance result_bind : MBind result := fun A B k m =>
  match m with
  | Ok a => k a
  | Raise e => Raise e
  end.

(** [expect e o]: the value of [o], raising [e] when there is none. *)
Definition expect {A : Type} (e : exn) (o : option A) : result A :=
  match o with
  | Some a => Ok a
  | None => Raise e
  end.

(** ** Python strings *)

Fixpoint all_chars (p : ascii → bool) (s : string) : bool :=
  match s with
  | EmptyString => true
  | String c s' => p c && all_chars p s'
  end.

(** [str.isspace] on the code points 0..255 of a header value. *)
Definition py_isspace (c : ascii) : bool :=
  let n := N_of_ascii c in
  ((9 <=? n) && (n <=? 13) || (28 <=? n) && (n <=? 32)
   || (n =? 133) || (n =? 160))%N.

Definition flush (cur : string) : list string :=
  match cur with
  | EmptyString => []
  | _ => [cur]
  end.

Fixpoint split_go (cur : string) (s : string) : list string :=
  match s with
  | EmptyString => flush cur
  | String c s' =>
      if py_isspace c then flush cur ++ split_go "" s'
      else split_go (cur +:+ String c "") s'
  end.

(** [s.split()]: the maximal runs of non-whitespace characters. *)
Definition split (s : string) : list string := split_go "" s.

(** [s.split(sep, 1)] unpacked into two names: cut at the first [sep];
    [None] when there is no [sep] (the unpacking raises ValueError). *)
Fixpoint split1 (sep : ascii) (s : string) : option (string * string) :=
  match s with
  | EmptyString => None
  | String c s' =>
      if decide (c = sep) then Some ("", s')
      else prod_map (String c) id <$> split1 sep s'
  end.

(** [s.rsplit(sep, 1)] unpacked into two names: cut at the last [sep]. *)
Fixpoint rsplit1 (sep : ascii) (s : string) : option (string * string) :=
  match s with
  | EmptyString => None
  | String c s' =>
      match rsplit1 sep s' with
      | Some (a, b) => Some (String c a, b)
      | None => if decide (c = sep) then Some ("", s') else None
      end
  end.

(** [s.split(sep)]: cut at every [sep]. *)
Fixpoint split_on (sep : ascii) (s : string) : list string :=
  match s with
  | EmptyString => [""]
  | String c s' =>
      if decide (c = sep) then "" :: split_on sep s'
      else
        match split_on sep s' with
        | w :: ws => String c w :: ws
        | [] => [String c ""]
        end
  end.

Definition not_space (c : ascii) : bool := negb (py_isspace c).
Definition not_sep (sep c : ascii) : bool := negb (bool_decide (c = sep)).
Definition not_dot : ascii → bool := not_sep ".".

(** Truthiness of an optional string: [None] and [""] are falsy. *)
Definition truthy (o : option string) : bool :=
  match o with
  | None => false
  | Some EmptyString => false
  | Some _ => true
  end.

(** ** JSON values and objects *)

Inductive jval : Type :=
  | JStr (s : string)
  | JInt (z : Z).

Global Instance jval_eq_dec : EqDecision jval.
Proof. solve_decision. Defined.

Global Instance jval_countable : Countable jval.
Proof.
  refine (inj_countable'
    (fun v => match v with JStr s => inl s | JInt z => inr z end)
    (fun x => match x with inl s => JStr s | inr z => JInt z end) _).
  intros []; reflexivity.
Defined.

Abbreviation dict := (gmap string jval).

(** [d[k]]: KeyError when the key is absent. *)
Definition getitem (d : dict) (k : string) : result jval :=
  expect KeyError (d !! k).

(** ** PyJWT (HS256)

    The segments of a token are base64url text of JSON text; the signature
    is an HMAC-SHA256 of the first two segments under the secret.  The
    encodings and the MAC are an interface: the code depends on them only
    through the laws below. *)

(** The base64url alphabet: letters, digits, [-] and [_]. *)
Definition b64url_char (c : ascii) : bool :=
  let n := N_of_ascii c in
  ((65 <=? n) && (n <=? 90) || (97 <=? n) && (n <=? 122)
   || (48 <=? n) && (n <=? 57) || (n =? 45) || (n =? 95))%N.

Class Codec : Type := {
  (** [base64url_encode]: bytes to unpadded base64url text. *)
  b64encode : string → string;
  (** [base64url_decode]; [None] stands for binascii.Error. *)
  b64decode : string → option string;
  (** [json.dumps] of an object. *)
  json_dumps : dict → string;
  (** [json.loads]; [None] stands for ValueError or a value that is not an
      object. *)
  json_loads : string → option dict;
  (** [hmac.new(key, msg, sha256).digest()]. *)
  hmac_sha256 : string → string → string;
  b64decode_encode : ∀ s, b64decode (b64encode s) = Some s;
  b64encode_alphabet : ∀ s, all_chars b64url_char (b64encode s) = true;
  json_loads_dumps : ∀ o, json_loads (json_dumps o) = Some o;
}.

(** bcrypt: [hashpw(password, salt)] and [checkpw(password, hashed)];
    [checkpw] raises (ValueError) on input it does not take, such as a
    stored value that is no bcrypt hash. *)
Class Bcrypt : Type := {
  hashpw : string → string → string;
  checkpw : string → string → result bool;
}.

Section PyJWT.
Context `{!Codec}.

Definition jose_header : dict :=
  {[ "alg" := JStr "HS256"; "typ" := JStr "JWT" ]}.

(** [jwt.encode(payload, key, algorithm="HS256")]. *)
Definition jwt_encode (payload : dict) (key : string) : string :=
  let signing_input :=
    b64encode (json_dumps jose_header) +:+ "." +:+
    b64encode (json_dumps payload) in
  signing_input +:+ "." +:+ b64encode (hmac_sha256 key signing_input).

(** The token for [payload] with one more byte at the end of its
    signature. *)
Definition jwt_tampered (payload : dict) (key : string) : string :=
  let signing_input :=
    b64encode (json_dumps jose_header) +:+ "." +:+
    b64encode (json_dumps payload) in
  signing_input +:+ "." +:+
  b64encode (hmac_sha256 key signing_input +:+ "x").

(** The [exp] check of [jwt.decode] (PyJWT 2.5 and later): a token is
    expired from the second [exp] on, as RFC 7519 asks (the current time
    must be before [exp]); an [exp] that is not a number is a
    DecodeError. *)
Definition validate_exp (payload : dict) (now : Z) : result unit :=
  match payload !! "exp" with
  | None => Ok ()
  | Some (JInt exp) =>
      if exp <=? now then Raise ExpiredSignatureError else Ok ()
  | Some (JStr _) => Raise DecodeError
  end.

(** [jwt.decode(token, key, algorithms=algorithms)] at clock reading
    [now], in whole seconds since the epoch as the library stores and
    compares them: the segments are split and decoded, then the signature
    is verified, then the claims are checked.  The checks of the
    registered claims that no issuer of this repository emits (nbf, iat,
    aud) are not part of the model. *)
Definition jwt_decode (token key : string) (algorithms : list string)
    (now : Z) : result dict :=
  '(signing_input, crypto_segment) ←
      expect DecodeError (rsplit1 "." token);
  '(header_segment, payload_segment) ←
      expect DecodeError (split1 "." signing_input);
  header_data ← expect DecodeError (b64decode header_segment);
  header ← expect DecodeError (json_loads header_data);
  payload_data ← expect DecodeError (b64decode payload_segment);
  signature ← expect DecodeError (b64decode crypto_segment);
  alg ← match header !! "alg" with
        | Some (JStr alg) =>
            if bool_decide (alg ∈ algorithms) && bool_decide (alg = "HS256")
            then Ok alg else Raise InvalidAlgorithmError
        | _ => Raise InvalidAlgorithmError
        end;
  if bool_decide (signature = hmac_sha256 key signing_input) then
    payload ← expect DecodeError (json_loads payload_data);
    _ ← validate_exp payload now;
    Ok payload
  else Raise InvalidSignatureError.
End PyJWT.

(** ** sqlite3: the users table

    [CREATE TABLE users (id INTEGER PRIMARY KEY, username TEXT UNIQUE,
    password TEXT)].  The database file is in one of three states:
    - [online]: every statement runs;
    - [locked] and not online: a connection that was left open inside a
      write transaction holds the write lock, so a SELECT runs and an INSERT
      raises OperationalError ('database is locked');
    - neither: the file cannot be opened and every statement raises
      OperationalError.
    A reachable store, in the comments below, is one that is [online]. *)

Record user_row : Type := {
  row_id : Z;
  row_username : string;
  row_password : string;
}.

Record database : Type := {
  online : bool;
  locked : bool;
  users : list user_row;
}.

(** A SELECT runs. *)
Definition readable (db : database) : bool := online db || locked db.

Definition has_username (u : string) (r : user_row) : bool :=
  bool_decide (row_username r = u).

Definition has_credentials (u p : string) (r : user_row) : bool :=
  bool_decide (row_username r = u) && bool_decide (row_password r = p).

Definition next_rowid (rows : list user_row) : Z :=
  1 + foldr Z.max 0 (row_id <$> rows).

(** The UNIQUE constraint on username. *)
Definition unique_usernames (db : database) : bool :=
  bool_decide (NoDup (row_username <$> users db)).

(** [INSERT INTO users (username, password) VALUES (?, ?)] and commit:
    IntegrityError when the UNIQUE constraint on username fails. *)
Definition insert_user (db : database) (u p : string) : result database :=
  if negb (online db) then Raise OperationalError
  else if existsb (has_username u) (users db) then Raise IntegrityError
  else Ok {| online := online db;
             locked := locked db;
             users := users db ++
               [{| row_id := next_rowid (users db);
                   row_username := u; row_password := p |}] |}.

(** [SELECT * FROM users WHERE username = ?] and [fetchone()]. *)
Definition select_by_username (db : database) (u : string)
    : result (option user_row) :=
  if negb (readable db) then Raise OperationalError
  else Ok (find (has_username u) (users db)).

(** [SELECT * FROM users WHERE username=? AND password=?] and
    [fetchone()]. *)
Definition select_by_credentials (db : database) (u p : string)
    : result (option user_row) :=
  if negb (readable db) then Raise OperationalError
  else Ok (find (has_credentials u p) (users db)).

(** A connection on which [execute] raised [e] and which is never closed:
    the [except] clauses of the registration views return without
    [conn.close()].  After an IntegrityError the connection is inside the
    write transaction its INSERT opened and keeps the write lock; after
    another error it holds no lock. *)
Definition left_open (e : exn) (db : database) : database :=
  match e with
  | IntegrityError => {| online := false; locked := true; users := users db |}
  | _ => db
  end.

(** The interpreter collects the connections that were left open: the
    write lock is released. *)
Definition collect (db : database) : database :=
  if locked db then {| online := true; locked := false; users := users db |}
  else db.

(** What happens to the store between two requests: a registration
    request, or a collection of the connections left open. *)
Inductive store_event : Type :=
  | Registers (salt username password : string)
  | Collects.

(** ** Flask responses

    [jsonify(body), status]; a view that raises is answered by Flask with
    status 500. *)

Record response : Type := {
  body : dict;
  status : Z;
}.

Definition http_status (r : result response) : Z :=
  match r with
  | Ok resp => status resp
  | Raise _ => 500
  end.

(** The request headers of a call that carries [Authorization: Bearer
    <token>], as the clients send it. *)
Definition bearer (token : string) : gmap string string :=
  {[ "Authorization" := "Bearer " +:+ token ]}.

(** ** backend/app.py of the bcrypt boilerplate *)

Module FullstackAiApp.
Section App.
Context `{!Codec, !Bcrypt}.

Definition SECRET_KEY : string := "your_jwt_secret_key".

Definition token_missing : response :=
  {| body := {[ "message" := JStr "Token is missing" ]}; status := 403 |}.

Definition token_invalid : response :=
  {| body := {[ "message" := JStr "Token is invalid" ]}; status := 403 |}.

(** What the [try] block of the guard computes from the header value. *)
Definition current_user_of (now : Z) (token : string) : result jval :=
  token ← expect IndexError (split token !! 1%nat);
  data ← jwt_decode token SECRET_KEY ["HS256"] now;
  getitem data "username".

(** [@token_required]: [f] is the wrapped view, [now] the clock reading
    and [headers] the request headers. *)
Definition token_required (f : jval → result response) (now : Z)
    (headers : gmap string string) : result response :=
  let token := headers !! "Authorization" in
  if negb (truthy token) then Ok token_missing
  else
    match current_user_of now (default "" token) with
    | Raise _ => Ok token_invalid
    | Ok current_user => f current_user
    end.

Definition user_registered : response :=
  {| body := {[ "message" := JStr "User registered" ]}; status := 201 |}.

Definition user_already_exists : response :=
  {| body := {[ "message" := JStr "User already exists" ]};
     status := 409 |}.

(** [POST /api/register]; [salt] is the value of [bcrypt.gensalt()].  The
    bare [except] answers every exception of the [try] block, and returns
    with the connection still open. *)
Definition register (salt : string) (db : database)
    (username plaintext : string) : result response * database :=
  let password := hashpw plaintext salt in
  match insert_user db username password with
  | Ok db' => (Ok user_registered, db')
  | Raise e => (Ok user_already_exists, left_open e db)
  end.

(** The store after a run of registration requests and collections. *)
Definition store_step (db : database) (e : store_event) : database :=
  match e with
  | Registers salt username password =>
      (register salt db username password).2
  | Collects => collect db
  end.

Definition store_run (db : database) (events : list store_event)
    : database :=
  foldl store_step db events.

Definition invalid_credentials : response :=
  {| body := {[ "message" := JStr "Invalid credentials" ]};
     status := 401 |}.

Definition token_response (token : string) : response :=
  {| body := {[ "token" := JStr token ]}; status := 200 |}.

(** The claims signed by [login] at clock reading [now]. *)
Definition login_claims (now : Z) (user : user_row) : dict :=
  {[ "username" := JStr (row_username user);
     "exp" := JInt (now + 30 * 60) ]}.

(** [data['password'].encode()]: KeyError when the body has no password,
    AttributeError when the password is not a string. *)
Definition encoded_password (password : option jval) : result string :=
  password ← expect KeyError password;
  match password with
  | JStr password => Ok password
  | JInt _ => Raise AttributeError
  end.

(** [POST /api/login]; [password] is what the request body holds under
    ['password'], if anything.  It is read, and [bcrypt.checkpw] is called,
    only once a row was found: [user and bcrypt.checkpw(...)]. *)
Definition login (now : Z) (db : database) (username : string)
    (password : option jval) : result response :=
  user ← select_by_username db username;
  match user with
  | Some user =>
      password ← encoded_password password;
      accepted ← checkpw password (row_password user);
      if accepted : bool then
        let token := jwt_encode (login_claims now user) SECRET_KEY in
        Ok (token_response token)
      else Ok invalid_credentials
  | None => Ok invalid_credentials
  end.
End App.
End FullstackAiApp.

(** ** backend/auth.py and backend/app.py of the spam-detector app *)

Module AiFullstackApp.
Section App.
Context `{!Codec}.
(** The process environment read by config.py. *)
Variable environ : gmap string string.

Definition SECRET_KEY : string := default "mysecret" (environ !! "SECRET_KEY").

Definition create_token (username : string) : string :=
  jwt_encode {[ "user" := JStr username ]} SECRET_KEY.

Definition token_missing : response :=
  {| body := {[ "error" := JStr "Token is missing" ]}; status := 401 |}.

Definition invalid_token : response :=
  {| body := {[ "error" := JStr "Invalid token" ]}; status := 403 |}.

(** [@token_required]: the header is split outside the [try]. *)
Definition token_required (f : jval → result response) (now : Z)
    (headers : gmap string string) : result response :=
  token ← match headers !! "Authorization" with
          | Some value =>
              part ← expect IndexError (split value !! 1%nat);
              Ok (Some part)
          | None => Ok None
          end;
  if negb (truthy token) then Ok token_missing
  else
    match data ← jwt_decode (default "" token) SECRET_KEY ["HS256"] now;
          getitem data "user" with
    | Raise _ => Ok invalid_token
    | Ok current_user => f current_user
    end.

Definition registered_successfully : response :=
  {| body := {[ "message" := JStr "User registered successfully" ]};
     status := 200 |}.

Definition username_already_exists : response :=
  {| body := {[ "error" := JStr "Username already exists" ]};
     status := 400 |}.

(** [register_user]: only sqlite3.IntegrityError is caught; no exception
    path closes the connection. *)
Definition register_user (db : database) (username password : string)
    : result response * database :=
  match insert_user db username password with
  | Ok db' => (Ok registered_successfully, db')
  | Raise IntegrityError =>
      (Ok username_already_exists, left_open IntegrityError db)
  | Raise e => (Raise e, left_open e db)
  end.

(** The store after a run of registration requests and collections; the
    spam detector draws no salt. *)
Definition store_step (db : database) (e : store_event) : database :=
  match e with
  | Registers _ username password => (register_user db username password).2
  | Collects => collect db
  end.

Definition store_run (db : database) (events : list store_event)
    : database :=
  foldl store_step db events.

Definition invalid_credentials : response :=
  {| body := {[ "error" := JStr "Invalid credentials" ]}; status := 403 |}.

Definition token_response (token : string) : response :=
  {| body := {[ "token" := JStr token ]}; status := 200 |}.

(** [POST /login]; the view does not read the clock. *)
Definition login (now : Z) (db : database) (username password : string)
    : result response :=
  user ← select_by_credentials db username password;
  match user with
  | Some _ => Ok (token_response (create_token username))
  | None => Ok invalid_credentials
  end.
End App.
End AiFullstackApp.

(** ** backend/auth.py of the basic-auth starter *)

Module BasicAuthApp.
Definition auth_required_response : response :=
  {| body := {[ "error" := JStr "Auth required" ]}; status := 401 |}.

Definition invalid_credentials : response :=
  {| body := {[ "error" := JStr "Invalid credentials" ]}; status := 403 |}.

(** [@auth_required]; [auth] is [request.authorization], the username and
    password of an HTTP basic credential. *)
Definition auth_required (f : result response) (db : database)
    (auth : option (string * string)) : result response :=
  match auth with
  | None => Ok auth_required_response
  | Some (username, password) =>
      user ← select_by_credentials db username password;
      match user with
      | Some _ => f
      | None => Ok invalid_credentials
      end
  end.
End BasicAuthApp.

(** ** src/App.js of the React client *)

Module ReactClient.
(** The component state ([useState]) and the browser's localStorage.
    [prediction = None] is JavaScript's [undefined]. *)
Record client : Type := {
  token : option string;
  username : option string;
  prediction : option jval;
  localStorage : gmap string string;
}.

(** What [await fetch(...)] and [await response.json()] deliver. *)
Inductive fetched : Type :=
  | NetworkError
  | Response (status : Z) (data : option dict).

(** The state of a fresh page load with nothing in localStorage. *)
Definition anonymous : client :=
  {| token := None;
     username := None;
     prediction := Some (JStr "");
     localStorage := ∅ |}.

(** [!token] is false: the component renders the protected page. *)
Definition authenticated (st : client) : bool := truthy (token st).

Definition handleLogin (tok user : string) (st : client) : client :=
  {| token := Some tok;
     username := Some user;
     prediction := prediction st;
     localStorage :=
       <["username" := user]> (<["token" := tok]> (localStorage st)) |}.

Definition logout (st : client) : client :=
  {| token := None;
     username := None;
     prediction := prediction st;
     localStorage :=
       delete "username" (delete "token" (localStorage st)) |}.

(** The Authorization header [handlePredict] sends. *)
Definition authorization (st : client) : gmap string string :=
  bearer (default "null" (token st)).

(** [handlePredict] once the fetch has settled; a rejected promise leaves
    the state as it is. *)
Definition handlePredict (st : client) (r : fetched) : client :=
  match r with
  | NetworkError => st
  | Response status data =>
      if bool_decide (status = 401) then logout st
      else
        match data with
        | None => st
        | Some data =>
            {| token := token st;
               username := username st;
               prediction := data !! "prediction";
               localStorage := localStorage st |}
        end
  end.

(** The reply of a Flask view as the client's fetch sees it. *)
Definition fetch_reply (r : result response) : fetched :=
  match r with
  | Ok resp => Response (status resp) (Some (body resp))
  | Raise _ => Response 500 None
  end.
End ReactClient.

(** ** An executable instance of the library interface

    Text is written as the binary digits of its code in [positive], the MAC
    is a keyed rolling checksum.  It serves to run the model on concrete
    requests. *)

Module Reference.
Fixpoint pos_bits (p : positive) : string :=
  match p with
  | xH => ""
  | xO q => String "0" (pos_bits q)
  | xI q => String "1" (pos_bits q)
  end.

Fixpoint bits_pos (s : string) : option positive :=
  match s with
  | EmptyString => Some xH
  | String c s' =>
      if decide (c = "0"%char) then xO <$> bits_pos s'
      else if decide (c = "1"%char) then xI <$> bits_pos s'
      else None
  end.

Definition to_bits `{Countable A} (a : A) : string := pos_bits (encode a).

Definition of_bits `{Countable A} (s : string) : option A :=
  bits_pos s ≫= decode.

Fixpoint rolling (h : N) (s : string) : N :=
  match s with
  | EmptyString => h
  | String c s' => rolling ((h * 31 + N_of_ascii c) mod 65521)%N s'
  end.

Definition checksum_mac (key msg : string) : string :=
  pos_bits (N.succ_pos (rolling (rolling 7 key) msg)).

Definition dollar_hashpw (password salt : string) : string :=
  salt +:+ "$" +:+ password.

Definition dollar_checkpw (password hashed : string) : result bool :=
  match rsplit1 "$" hashed with
  | Some (_, p) => Ok (bool_decide (p = password))
  | None => Raise ValueError
  end.

Lemma bits_pos_bits (p : positive) : bits_pos (pos_bits p) = Some p.
Proof. induction p as [p IH|p IH|]; simpl; by rewrite ?IH. Qed.

Lemma of_bits_to_bits `{Countable A} (a : A) : of_bits (to_bits a) = Some a.
Proof.
  unfold of_bits, to_bits. rewrite bits_pos_bits. simpl.
  apply decode_encode.
Qed.

Lemma pos_bits_alphabet (p : positive) :
  all_chars b64url_char (pos_bits p) = true.
Proof. induction p as [p IH|p IH|]; simpl; by rewrite ?IH. Qed.

Definition codec : Codec := {|
  b64encode := to_bits;
  b64decode := of_bits;
  json_dumps := to_bits;
  json_loads := of_bits;
  hmac_sha256 := checksum_mac;
  b64decode_encode := of_bits_to_bits;
  b64encode_alphabet := fun s => pos_bits_alphabet (encode s);
  json_loads_dumps := of_bits_to_bits;
|}.

Definition bcrypt : Bcrypt := {|
  hashpw := dollar_hashpw;
  checkpw := dollar_checkpw;
|}.

(** A wrapped view that answers with the authenticated user. *)
Definition whoami (current_user : jval) : result response :=
  Ok {| body := {[ "user" := current_user ]}; status := 200 |}.

Definition empty_store : database :=
  {| online := true; locked := false; users := [] |}.

Definition unreachable_store : database :=
  {| online := false; locked := false; users := [] |}.

Definition alice : user_row :=
  {| row_id := 1; row_username := "alice";
     row_password := "salt$secret123" |}.

Definition alice_store : database :=
  {| online := true; locked := false; users := [alice] |}.

(** The token the bcrypt boilerplate's login signs for alice at [now],
    and the same token with an altered signature. *)
Definition login_token (now : Z) : string :=
  @jwt_encode codec (FullstackAiApp.login_claims now alice)
    FullstackAiApp.SECRET_KEY.

Definition forged_token (now : Z) : string :=
  @jwt_tampered codec (FullstackAiApp.login_claims now alice)
    FullstackAiApp.SECRET_KEY.

(** The token the spam detector's [create_token] signs for alice. *)
Definition spam_token : string := @AiFullstackApp.create_token codec ∅ "alice".

(** The two guards, wrapped around [whoami], with the default
    environment. *)
Definition guard : Z → gmap string string → result response :=
  @FullstackAiApp.token_required codec whoami.

Definition spam_guard : Z → gmap string string → result response :=
  @AiFullstackApp.token_required codec ∅ whoami.

(** The client after a login as alice at clock reading 0. *)
Definition session : ReactClient.client :=
  ReactClient.handleLogin (login_token 0) "alice" ReactClient.anonymous.
End Reference.

(** * Properties *)

(** ** Strings *)

Lemma append_cons (c : ascii) (a b : string) :
  String c a +:+ b = String c (a +:+ b).
Proof. reflexivity. Qed.

Lemma append_dot (b : string) : "." +:+ b = String "." b.
Proof. reflexivity. Qed.

Lemma append_nil_r (a : string) : a +:+ "" = a.
Proof. induction a as [|c a IH]; [done|]. by rewrite append_cons, IH. Qed.

Lemma append_assoc (a b c : string) : (a +:+ b) +:+ c = a +:+ (b +:+ c).
Proof.
  induction a as [|x a IH]; [done|]. by rewrite !append_cons, IH.
Qed.

Lemma length_append (a b : string) :
  String.length (a +:+ b) = (String.length a + String.length b)%nat.
Proof.
  induction a as [|x a IH]; [done|]. rewrite append_cons. simpl. by rewrite IH.
Qed.

Lemma append_suffix_neq (a : string) (c : ascii) : a +:+ String c "" ≠ a.
Proof.
  intros Heq. apply (f_equal String.length) in Heq.
  rewrite length_append in Heq. simpl in Heq. lia.
Qed.

Lemma all_chars_app (p : ascii → bool) (a b : string) :
  all_chars p (a +:+ b) = all_chars p a && all_chars p b.
Proof.
  induction a as [|c a IH]; [done|].
  rewrite append_cons. simpl. rewrite IH. by rewrite andb_assoc.
Qed.

Lemma all_chars_impl (p q : ascii → bool) (s : string) :
  (∀ c, p c = true → q c = true) →
  all_chars p s = true → all_chars q s = true.
Proof.
  intros Hpq. induction s as [|c s IH]; [done|]. simpl.
  intros [Hc Hs]%andb_true_iff. rewrite (Hpq _ Hc). by apply IH.
Qed.

Lemma b64url_char_not_space (c : ascii) :
  b64url_char c = true → not_space c = true.
Proof. by destruct c as [[] [] [] [] [] [] [] []]. Qed.

Lemma b64url_char_not_dot (c : ascii) :
  b64url_char c = true → not_dot c = true.
Proof. by destruct c as [[] [] [] [] [] [] [] []]. Qed.

Lemma split_go_word (w cur s : string) :
  all_chars not_space w = true →
  split_go cur (w +:+ s) = split_go (cur +:+ w) s.
Proof.
  revert cur. induction w as [|c w IH]; intros cur Hw.
  - by rewrite append_nil_r.
  - simpl in Hw. apply andb_true_iff in Hw as [Hc Hw].
    rewrite append_cons. simpl.
    unfold not_space in Hc. apply negb_true_iff in Hc. rewrite Hc.
    rewrite (IH _ Hw). by rewrite append_assoc.
Qed.

Lemma flush_nonempty (cur : string) : Forall (fun w => w ≠ "") (flush cur).
Proof. destruct cur; simpl; [constructor|]. by repeat constructor. Qed.

Lemma split_go_nonempty (s cur : string) :
  Forall (fun w => w ≠ "") (split_go cur s).
Proof.
  revert cur. induction s as [|c s IH]; intros cur; simpl.
  - apply flush_nonempty.
  - destruct (py_isspace c); [|apply IH].
    apply Forall_app. split; [apply flush_nonempty|apply IH].
Qed.

(** No part of [s.split()] is empty. *)
Lemma split_part_nonempty (s part : string) (i : nat) :
  split s !! i = Some part → part ≠ "".
Proof.
  intros Hi. apply list_elem_of_lookup_2 in Hi.
  by apply (proj1 (Forall_forall _ _) (split_go_nonempty s "")).
Qed.

(** The header value the clients send, [Bearer] and a token without
    whitespace, splits into exactly these two parts. *)
Lemma split_bearer (w : string) :
  w ≠ "" → all_chars not_space w = true →
  split ("Bearer " +:+ w) = ["Bearer"; w].
Proof.
  intros Hne Hw. unfold split.
  change ("Bearer " +:+ w) with ("Bearer" +:+ String " " w).
  rewrite (split_go_word "Bearer" "" (String " " w)) by done.
  simpl. rewrite <- (append_nil_r w) at 1.
  rewrite (split_go_word w "" "") by done. simpl.
  by destruct w.
Qed.

Lemma split1_app (sep : ascii) (a b : string) :
  all_chars (not_sep sep) a = true →
  split1 sep (a +:+ String sep b) = Some (a, b).
Proof.
  induction a as [|c a IH]; intros Ha; simpl in Ha.
  - simpl. by rewrite decide_True.
  - apply andb_true_iff in Ha as [Hc Ha]. rewrite append_cons. simpl.
    apply negb_true_iff, bool_decide_eq_false in Hc.
    rewrite decide_False by done. by rewrite (IH Ha).
Qed.

Lemma rsplit1_none (sep : ascii) (b : string) :
  all_chars (not_sep sep) b = true → rsplit1 sep b = None.
Proof.
  induction b as [|c b IH]; simpl; [done|].
  intros [Hc Hb]%andb_true_iff. rewrite (IH Hb).
  apply negb_true_iff, bool_decide_eq_false in Hc.
  by rewrite decide_False.
Qed.

Lemma rsplit1_app (sep : ascii) (a b : string) :
  all_chars (not_sep sep) b = true →
  rsplit1 sep (a +:+ String sep b) = Some (a, b).
Proof.
  intros Hb. induction a as [|c a IH].
  - simpl. rewrite (rsplit1_none _ _ Hb). by rewrite decide_True.
  - rewrite append_cons. simpl. by rewrite IH.
Qed.

Lemma split_on_no_sep (sep : ascii) (a : string) :
  all_chars (not_sep sep) a = true → split_on sep a = [a].
Proof.
  induction a as [|c a IH]; simpl; [done|].
  intros [Hc Ha]%andb_true_iff.
  apply negb_true_iff, bool_decide_eq_false in Hc.
  rewrite decide_False by done. by rewrite (IH Ha).
Qed.

Lemma split_on_app (sep : ascii) (a b : string) :
  all_chars (not_sep sep) a = true →
  split_on sep (a +:+ String sep b) = a :: split_on sep b.
Proof.
  induction a as [|c a IH]; intros Ha; simpl in Ha.
  - simpl. by rewrite decide_True.
  - apply andb_true_iff in Ha as [Hc Ha]. rewrite append_cons. simpl.
    apply negb_true_iff, bool_decide_eq_false in Hc.
    rewrite decide_False by done. by rewrite (IH Ha).
Qed.

(** ** PyJWT: decoding what was encoded *)

Section JwtFacts.
Context `{!Codec}.

Lemma b64encode_not_dot (s : string) :
  all_chars not_dot (b64encode s) = true.
Proof.
  eapply all_chars_impl; [apply b64url_char_not_dot|].
  apply b64encode_alphabet.
Qed.

Lemma b64encode_not_space (s : string) :
  all_chars not_space (b64encode s) = true.
Proof.
  eapply all_chars_impl; [apply b64url_char_not_space|].
  apply b64encode_alphabet.
Qed.

Lemma jwt_encode_not_space (payload : dict) (key : string) :
  all_chars not_space (jwt_encode payload key) = true.
Proof.
  unfold jwt_encode. rewrite !all_chars_app, !b64encode_not_space. done.
Qed.

Lemma jwt_encode_nonempty (payload : dict) (key : string) :
  jwt_encode payload key ≠ "".
Proof.
  unfold jwt_encode. cbv zeta. rewrite append_assoc, append_dot.
  destruct (b64encode (json_dumps jose_header)); discriminate.
Qed.

Lemma jwt_tampered_not_space (payload : dict) (key : string) :
  all_chars not_space (jwt_tampered payload key) = true.
Proof.
  unfold jwt_tampered. rewrite !all_chars_app, !b64encode_not_space. done.
Qed.

Lemma jwt_tampered_nonempty (payload : dict) (key : string) :
  jwt_tampered payload key ≠ "".
Proof.
  unfold jwt_tampered. cbv zeta. rewrite append_assoc, append_dot.
  destruct (b64encode (json_dumps jose_header)); discriminate.
Qed.

Lemma jose_header_alg : jose_header !! "alg" = Some (JStr "HS256").
Proof. reflexivity. Qed.

(** Decoding a token under the key that signed it yields its claims,
    unless the [exp] check raises. *)
Lemma jwt_decode_encode (payload : dict) (key : string) (now : Z) :
  jwt_decode (jwt_encode payload key) key ["HS256"] now
  = (validate_exp payload now ≫= fun _ => Ok payload).
Proof.
  unfold jwt_decode, jwt_encode. cbv zeta. rewrite !append_dot.
  rewrite (rsplit1_app "." _ _ (b64encode_not_dot _)). simpl.
  rewrite (split1_app "." _ _ (b64encode_not_dot _)). simpl.
  rewrite !b64decode_encode. simpl.
  rewrite !json_loads_dumps. simpl.
  rewrite jose_header_alg. simpl.
  rewrite bool_decide_eq_true_2 by done. done.
Qed.

(** A token whose signature was altered fails signature verification,
    whatever its claims and the clock. *)
Lemma jwt_decode_tampered (payload : dict) (key : string) (now : Z) :
  jwt_decode (jwt_tampered payload key) key ["HS256"] now
  = Raise InvalidSignatureError.
Proof.
  unfold jwt_decode, jwt_tampered. cbv zeta. rewrite !append_dot.
  rewrite (rsplit1_app "." _ _ (b64encode_not_dot _)). simpl.
  rewrite (split1_app "." _ _ (b64encode_not_dot _)). simpl.
  rewrite !b64decode_encode. simpl.
  rewrite !json_loads_dumps. simpl.
  rewrite jose_header_alg. simpl.
  rewrite bool_decide_eq_false_2; [done|]. apply append_suffix_neq.
Qed.

(** A token without a dot is rejected as malformed before any signature
    is looked at. *)
Lemma jwt_decode_no_dot (token key : string) (algorithms : list string)
    (now : Z) :
  all_chars not_dot token = true →
  jwt_decode token key algorithms now = Raise DecodeError.
Proof.
  intros Hd. unfold jwt_decode. by rewrite (rsplit1_none "." _ Hd).
Qed.

(** The order of the decoder's checks: an expired-token error means that
    the token had its three parts and that its signature verified. *)
Lemma jwt_decode_expired_inv (token key : string)
    (algorithms : list string) (now : Z) :
  jwt_decode token key algorithms now = Raise ExpiredSignatureError →
  ∃ signing_input crypto_segment (payload : dict) exp,
    rsplit1 "." token = Some (signing_input, crypto_segment) ∧
    b64decode crypto_segment = Some (hmac_sha256 key signing_input) ∧
    payload !! "exp" = Some (JInt exp) ∧ exp <= now.
Proof.
  unfold jwt_decode.
  destruct (rsplit1 "." token) as [[si cs]|]; simpl; [|done].
  destruct (split1 "." si) as [[hs ps]|] eqn:Hsi; simpl; [|done].
  destruct (b64decode hs) as [hd|]; simpl; [|done].
  destruct (json_loads hd) as [header|]; simpl; [|done].
  destruct (b64decode ps) as [pd|]; simpl; [|done].
  destruct (b64decode cs) as [sig|] eqn:Hcs; simpl; [|done].
  destruct (header !! "alg") as [[alg|]|]; simpl; try done.
  destruct (bool_decide (alg ∈ algorithms) && bool_decide (alg = "HS256"));
    simpl; [|done].
  case_bool_decide as Hsig; [|done].
  destruct (json_loads pd) as [payload|]; simpl; [|done].
  unfold validate_exp.
  destruct (payload !! "exp") as [[s|exp]|] eqn:Hexp; simpl; try done.
  destruct (Z.leb_spec exp now) as [Hle|Hlt]; [|done].
  intros _. exists si, cs, payload, exp. by subst sig.
Qed.

(** An invalid-signature error means that the token had its three
    parts. *)
Lemma jwt_decode_signature_inv (token key : string)
    (algorithms : list string) (now : Z) :
  jwt_decode token key algorithms now = Raise InvalidSignatureError →
  ∃ signing_input crypto_segment signature,
    rsplit1 "." token = Some (signing_input, crypto_segment) ∧
    is_Some (split1 "." signing_input) ∧
    b64decode crypto_segment = Some signature ∧
    signature ≠ hmac_sha256 key signing_input.
Proof.
  unfold jwt_decode.
  destruct (rsplit1 "." token) as [[si cs]|]; simpl; [|done].
  destruct (split1 "." si) as [[hs ps]|] eqn:Hsi; simpl; [|done].
  destruct (b64decode hs) as [hd|]; simpl; [|done].
  destruct (json_loads hd) as [header|]; simpl; [|done].
  destruct (b64decode ps) as [pd|]; simpl; [|done].
  destruct (b64decode cs) as [sig|] eqn:Hcs; simpl; [|done].
  destruct (header !! "alg") as [[alg|]|]; simpl; try done.
  destruct (bool_decide (alg ∈ algorithms) && bool_decide (alg = "HS256"));
    simpl; [|done].
  case_bool_decide as Hsig.
  - destruct (json_loads pd) as [payload|]; simpl; [|done].
    unfold validate_exp.
    destruct (payload !! "exp") as [[s|exp]|]; simpl; try done.
    by destruct (exp <=? now).
  - intros _. by exists si, cs, sig.
Qed.
End JwtFacts.

(** ** The users table *)

Lemma existsb_find_none (p : user_row → bool) (rows : list user_row) :
  existsb p rows = false → find p rows = None.
Proof.
  induction rows as [|r rows IH]; simpl; [done|].
  destruct (p r); simpl; [done|]. exact IH.
Qed.

Lemma find_none_existsb (p : user_row → bool) (rows : list user_row) :
  find p rows = None → existsb p rows = false.
Proof.
  induction rows as [|r rows IH]; simpl; [done|].
  destruct (p r); simpl; [done|]. exact IH.
Qed.

Lemma find_some_existsb (p : user_row → bool) (rows : list user_row)
    (r : user_row) :
  find p rows = Some r → existsb p rows = true.
Proof.
  induction rows as [|r' rows IH]; simpl; [done|].
  destruct (p r'); simpl; [done|]. exact IH.
Qed.

Lemma find_app_fresh (p : user_row → bool) (rows : list user_row)
    (r : user_row) :
  existsb p rows = false → p r = true → find p (rows ++ [r]) = Some r.
Proof.
  induction rows as [|r' rows IH]; simpl.
  - intros _ ->. done.
  - destruct (p r'); simpl; [done|]. exact IH.
Qed.

Lemma find_has_username (u : string) (rows : list user_row) (r : user_row) :
  find (has_username u) rows = Some r → row_username r = u ∧ r ∈ rows.
Proof.
  induction rows as [|r' rows IH]; simpl; [done|].
  unfold has_username at 1. case_bool_decide as Hu.
  - intros [= <-]. split; [done|]. apply list_elem_of_here.
  - intros [? ?]%IH. split; [done|]. by apply list_elem_of_further.
Qed.

Lemma find_credentials_absent (u p : string) (rows : list user_row) :
  u ∉ row_username <$> rows → find (has_credentials u p) rows = None.
Proof.
  induction rows as [|r rows IH]; simpl; [done|].
  intros Hnot. apply not_elem_of_cons in Hnot as [Hne Hnot].
  unfold has_credentials at 1.
  rewrite (bool_decide_eq_false_2 (row_username r = u)) by done.
  simpl. by apply IH.
Qed.

(** With unique usernames, a user whose stored password differs from the
    attempt has no row matching both. *)
Lemma find_credentials_wrong (u p : string) (rows : list user_row)
    (r : user_row) :
  NoDup (row_username <$> rows) →
  find (has_username u) rows = Some r →
  row_password r ≠ p →
  find (has_credentials u p) rows = None.
Proof.
  induction rows as [|r' rows IH]; simpl; [done|].
  intros Hnd. apply NoDup_cons in Hnd as [Hnot Hnd].
  unfold has_username at 1, has_credentials at 1.
  case_bool_decide as Hu; simpl.
  - intros [= <-] Hp. rewrite (bool_decide_eq_false_2 _ Hp). subst u.
    by apply find_credentials_absent.
  - intros Hf Hp. by apply IH.
Qed.

Lemma find_credentials_unknown (u p : string) (rows : list user_row) :
  find (has_username u) rows = None →
  find (has_credentials u p) rows = None.
Proof.
  induction rows as [|r rows IH]; simpl; [done|].
  unfold has_username at 1, has_credentials at 1.
  case_bool_decide; simpl; [done|]. exact IH.
Qed.

(** Insertion keeps the usernames unique. *)
Lemma insert_user_unique (db db' : database) (u p : string) :
  unique_usernames db = true →
  insert_user db u p = Ok db' →
  unique_usernames db' = true.
Proof.
  unfold unique_usernames, insert_user.
  intros Hnd%bool_decide_eq_true.
  destruct (online db); simpl; [|done].
  destruct (existsb (has_username u) (users db)) eqn:Hex; [done|].
  intros [= <-]. simpl. apply bool_decide_eq_true.
  rewrite fmap_app. simpl. apply NoDup_app. split; [done|].
  split; [|apply NoDup_singleton].
  intros x Hx ->%list_elem_of_singleton.
  apply list_elem_of_fmap in Hx as [r [Hr Hin]].
  apply existsb_find_none in Hex.
  assert (existsb (has_username (row_username r)) (users db) = true) as Ht.
  { apply existsb_exists. exists r. split; [by apply list_elem_of_In|].
    unfold has_username. by apply bool_decide_eq_true. }
  apply find_none_existsb in Hex. rewrite Hr in Hex. congruence.
Qed.


Lemma insert_user_fresh (db : database) (u p : string) :
  online db = true →
  existsb (has_username u) (users db) = false →
  ∃ db', insert_user db u p = Ok db' ∧ online db' = true ∧
    existsb (has_username u) (users db') = true ∧
    find (has_username u) (users db') =
      Some {| row_id := next_rowid (users db);
              row_username := u; row_password := p |}.
Proof.
  unfold insert_user. intros Hon Hex. rewrite Hon, Hex. simpl.
  eexists. split; [done|]. simpl. split; [done|].
  assert (has_username u {| row_id := next_rowid (users db);
            row_username := u; row_password := p |} = true) as Hu.
  { unfold has_username. by apply bool_decide_eq_true. }
  split.
  - rewrite existsb_app. simpl. rewrite Hu. by rewrite orb_true_r.
  - by apply find_app_fresh.
Qed.


(** ** The guards *)

Lemma Ok_inj {A : Type} (a b : A) : Ok a = Ok b → a = b.
Proof. by intros [=]. Qed.

Lemma truthy_false (o : option string) :
  truthy o = false ↔ o = None ∨ o = Some "".
Proof.
  destruct o as [[|c s]|]; simpl; split; intros; try done; auto.
  - destruct H as [H|H]; discriminate.
Qed.

Lemma truthy_some (value : string) : value ≠ "" → truthy (Some value) = true.
Proof. by destruct value. Qed.

Lemma bearer_lookup (token : string) :
  bearer token !! "Authorization" = Some ("Bearer " +:+ token).
Proof. unfold bearer. apply lookup_singleton_eq. Qed.

Section Guards.
Context `{!Codec}.
Variable environ : gmap string string.
Variable f : jval → result response.

Lemma missing_is_not_invalid :
  FullstackAiApp.token_missing ≠ FullstackAiApp.token_invalid.
Proof.
  intros Heq. apply (f_equal (fun r => body r !! "message")) in Heq.
  unfold FullstackAiApp.token_missing, FullstackAiApp.token_invalid in Heq.
  simpl in Heq. rewrite !lookup_singleton_eq in Heq. discriminate.
Qed.

(** The bcrypt boilerplate's guard on a token that arrives as
    [Bearer <token>]. *)
Lemma guard_bearer (now : Z) (token : string) :
  token ≠ "" → all_chars not_space token = true →
  FullstackAiApp.token_required f now (bearer token) =
    match jwt_decode token FullstackAiApp.SECRET_KEY ["HS256"] now
            ≫= fun data => getitem data "username" with
    | Raise _ => Ok FullstackAiApp.token_invalid
    | Ok current_user => f current_user
    end.
Proof.
  intros Hne Hsp. unfold FullstackAiApp.token_required.
  rewrite bearer_lookup. simpl.
  unfold FullstackAiApp.current_user_of.
  by rewrite (split_bearer token Hne Hsp).
Qed.

(** The spam detector's guard on a token that arrives as
    [Bearer <token>]. *)
Lemma spam_guard_bearer (now : Z) (token : string) :
  token ≠ "" → all_chars not_space token = true →
  AiFullstackApp.token_required environ f now (bearer token) =
    match jwt_decode token (AiFullstackApp.SECRET_KEY environ) ["HS256"] now
            ≫= fun data => getitem data "user" with
    | Raise _ => Ok AiFullstackApp.invalid_token
    | Ok current_user => f current_user
    end.
Proof.
  intros Hne Hsp. unfold AiFullstackApp.token_required.
  rewrite bearer_lookup. rewrite (split_bearer token Hne Hsp).
  by destruct token.
Qed.
End Guards.

(** * The claims *)

(** C1 (as amended).  The guards check in order and know two rejections.
    In the bcrypt boilerplate an absent or empty credential is rejected as
    "Token is missing"; a credential that cannot be split into two parts,
    or whose token makes the decoder raise whatever exception (malformed,
    bad signature, expired) or lacks the [username] claim, is rejected with
    the one "Token is invalid" answer; both carry status 403 and differ
    only in their message.  In the spam detector an absent header is
    rejected as "Token is missing" (401) and every decoder exception as
    "Invalid token" (403). *)
Theorem guard_failure_modes `{!Codec} (environ : gmap string string)
    (f : jval → result response) (now : Z) (headers : gmap string string) :
  (truthy (headers !! "Authorization") = false →
     FullstackAiApp.token_required f now headers
     = Ok FullstackAiApp.token_missing) ∧
  (∀ value, headers !! "Authorization" = Some value → value ≠ "" →
     split value !! 1%nat = None →
     FullstackAiApp.token_required f now headers
     = Ok FullstackAiApp.token_invalid) ∧
  (∀ value token e, headers !! "Authorization" = Some value → value ≠ "" →
     split value !! 1%nat = Some token →
     jwt_decode token FullstackAiApp.SECRET_KEY ["HS256"] now = Raise e →
     FullstackAiApp.token_required f now headers
     = Ok FullstackAiApp.token_invalid) ∧
  (∀ value token data, headers !! "Authorization" = Some value →
     value ≠ "" → split value !! 1%nat = Some token →
     jwt_decode token FullstackAiApp.SECRET_KEY ["HS256"] now = Ok data →
     data !! "username" = None →
     FullstackAiApp.token_required f now headers
     = Ok FullstackAiApp.token_invalid) ∧
  FullstackAiApp.token_missing ≠ FullstackAiApp.token_invalid ∧
  status FullstackAiApp.token_missing = status FullstackAiApp.token_invalid ∧
  (headers !! "Authorization" = None →
     AiFullstackApp.token_required environ f now headers
     = Ok AiFullstackApp.token_missing) ∧
  (∀ value token e, headers !! "Authorization" = Some value →
     split value !! 1%nat = Some token →
     jwt_decode token (AiFullstackApp.SECRET_KEY environ) ["HS256"] now
     = Raise e →
     AiFullstackApp.token_required environ f now headers
     = Ok AiFullstackApp.invalid_token).
Proof.
  repeat split.
  - intros Hm. unfold FullstackAiApp.token_required. by rewrite Hm.
  - intros value Hv Hne Hs. unfold FullstackAiApp.token_required.
    rewrite Hv, (truthy_some _ Hne). simpl.
    unfold FullstackAiApp.current_user_of. by rewrite Hs.
  - intros value token e Hv Hne Hs Hd. unfold FullstackAiApp.token_required.
    rewrite Hv, (truthy_some _ Hne). simpl.
    unfold FullstackAiApp.current_user_of. rewrite Hs. simpl. by rewrite Hd.
  - intros value token data Hv Hne Hs Hd Hk.
    unfold FullstackAiApp.token_required.
    rewrite Hv, (truthy_some _ Hne). simpl.
    unfold FullstackAiApp.current_user_of. rewrite Hs. simpl. rewrite Hd.
    simpl. unfold getitem. by rewrite Hk.
  - apply missing_is_not_invalid.
  - intros Hv. unfold AiFullstackApp.token_required. by rewrite Hv.
  - intros value token e Hv Hs Hd. unfold AiFullstackApp.token_required.
    rewrite Hv, Hs.
    pose proof (split_part_nonempty _ _ _ Hs) as Hne.
    destruct token as [|c t]; [done|]. simpl. by rewrite Hd.
Qed.

Lemma guard_failure_modes_witness :
  Reference.guard 0 ∅ = Ok FullstackAiApp.token_missing ∧
  Reference.guard 0 (bearer "garbage") = Ok FullstackAiApp.token_invalid ∧
  Reference.guard 0 {[ "Authorization" := "Bearer" ]}
  = Ok FullstackAiApp.token_invalid ∧
  Reference.spam_guard 0 ∅ = Ok AiFullstackApp.token_missing ∧
  Reference.spam_guard 0 (bearer "garbage") = Ok AiFullstackApp.invalid_token.
Proof.
  split; [|split; [|split; [|split]]].
  - apply (@guard_failure_modes Reference.codec ∅ Reference.whoami 0 ∅).
    reflexivity.
  - apply (proj1 (proj2 (proj2 (@guard_failure_modes Reference.codec ∅
             Reference.whoami 0 (bearer "garbage"))))
           "Bearer garbage" "garbage" DecodeError);
      [reflexivity | discriminate | reflexivity | reflexivity].
  - apply (proj1 (proj2 (@guard_failure_modes Reference.codec ∅
             Reference.whoami 0 {[ "Authorization" := "Bearer" ]}))
           "Bearer"); [reflexivity | discriminate | reflexivity].
  - apply (@guard_failure_modes Reference.codec ∅ Reference.whoami 0 ∅).
    reflexivity.
  - apply (proj2 (proj2 (proj2 (proj2 (proj2 (proj2 (proj2
             (@guard_failure_modes Reference.codec ∅ Reference.whoami 0
                (bearer "garbage"))))))))
           "Bearer garbage" "garbage" DecodeError);
      [reflexivity | reflexivity | reflexivity].
Defined.

(** C1 (as stated) fails: a malformed token, a token with an altered
    signature and an expired token make the decoder raise three different
    exceptions, and the guard answers all three with the same rejection. *)
Lemma guard_failure_modes_counterexample :
  @jwt_decode Reference.codec "garbage" FullstackAiApp.SECRET_KEY
    ["HS256"] 1800 = Raise DecodeError ∧
  @jwt_decode Reference.codec (Reference.forged_token 0)
    FullstackAiApp.SECRET_KEY ["HS256"] 1800 = Raise InvalidSignatureError ∧
  @jwt_decode Reference.codec (Reference.login_token 0)
    FullstackAiApp.SECRET_KEY ["HS256"] 1800 = Raise ExpiredSignatureError ∧
  Reference.guard 1800 (bearer "garbage")
  = Ok FullstackAiApp.token_invalid ∧
  Reference.guard 1800 (bearer (Reference.forged_token 0))
  = Ok FullstackAiApp.token_invalid ∧
  Reference.guard 1800 (bearer (Reference.login_token 0))
  = Ok FullstackAiApp.token_invalid.
Proof.
  assert (@jwt_decode Reference.codec (Reference.login_token 0)
    FullstackAiApp.SECRET_KEY ["HS256"] 1800 = Raise ExpiredSignatureError)
    as Hstale.
  { unfold Reference.login_token. rewrite jwt_decode_encode. reflexivity. }
  assert (@jwt_decode Reference.codec (Reference.forged_token 0)
    FullstackAiApp.SECRET_KEY ["HS256"] 1800 = Raise InvalidSignatureError)
    as Hforged by apply jwt_decode_tampered.
  split; [reflexivity|]. split; [exact Hforged|]. split; [exact Hstale|].
  unfold Reference.guard. split; [reflexivity|]. split.
  - rewrite guard_bearer.
    + by rewrite Hforged.
    + apply jwt_tampered_nonempty.
    + apply jwt_tampered_not_space.
  - rewrite guard_bearer.
    + by rewrite Hstale.
    + apply jwt_encode_nonempty.
    + apply jwt_encode_not_space.
Qed.

(** ** Issued tokens *)

Section Issued.
Context `{!Codec, !Bcrypt}.
Variable environ : gmap string string.

Lemma login_claims_exp (now : Z) (user : user_row) :
  FullstackAiApp.login_claims now user !! "exp" = Some (JInt (now + 30 * 60)).
Proof.
  unfold FullstackAiApp.login_claims.
  rewrite lookup_insert_ne by done. apply lookup_singleton_eq.
Qed.

Lemma login_claims_username (now : Z) (user : user_row) :
  FullstackAiApp.login_claims now user !! "username"
  = Some (JStr (row_username user)).
Proof. unfold FullstackAiApp.login_claims. apply lookup_insert_eq. Qed.

Lemma token_response_inj (t t' : string) :
  FullstackAiApp.token_response t = FullstackAiApp.token_response t' →
  t = t'.
Proof.
  intros Heq. apply (f_equal (fun r => body r !! "token")) in Heq.
  unfold FullstackAiApp.token_response in Heq. simpl in Heq.
  rewrite !lookup_singleton_eq in Heq. congruence.
Qed.

Lemma invalid_credentials_not_token (t : string) :
  FullstackAiApp.invalid_credentials ≠ FullstackAiApp.token_response t.
Proof.
  intros Heq. apply (f_equal status) in Heq. discriminate.
Qed.

(** A login that answers with a token found the user's row, checked the
    password against it, and signed the claims of that row. *)
Lemma login_inv (now : Z) (db : database) (u token : string)
    (field : option jval) :
  FullstackAiApp.login now db u field
  = Ok (FullstackAiApp.token_response token) →
  ∃ user p, readable db = true ∧ field = Some (JStr p) ∧
    find (has_username u) (users db) = Some user ∧
    checkpw p (row_password user) = Ok true ∧
    token = jwt_encode (FullstackAiApp.login_claims now user)
              FullstackAiApp.SECRET_KEY.
Proof.
  unfold FullstackAiApp.login, select_by_username.
  destruct (readable db); simpl; [|done].
  destruct (find (has_username u) (users db)) as [user|]; simpl.
  - destruct field as [[p|z]|]; simpl; [|done..].
    destruct (checkpw p (row_password user)) as [[]|e] eqn:Hpw; simpl.
    + intros Heq%Ok_inj%token_response_inj. by exists user, p.
    + intros Heq%Ok_inj. by apply invalid_credentials_not_token in Heq.
    + done.
  - intros Heq%Ok_inj. by apply invalid_credentials_not_token in Heq.
Qed.

Lemma spam_token_response_inj (t t' : string) :
  AiFullstackApp.token_response t = AiFullstackApp.token_response t' →
  t = t'.
Proof.
  intros Heq. apply (f_equal (fun r => body r !! "token")) in Heq.
  unfold AiFullstackApp.token_response in Heq. simpl in Heq.
  rewrite !lookup_singleton_eq in Heq. congruence.
Qed.

Lemma spam_login_inv (now : Z) (db : database) (u p token : string) :
  AiFullstackApp.login environ now db u p
  = Ok (AiFullstackApp.token_response token) →
  readable db = true ∧
  is_Some (find (has_credentials u p) (users db)) ∧
  token = AiFullstackApp.create_token environ u.
Proof.
  unfold AiFullstackApp.login, select_by_credentials.
  destruct (readable db); simpl; [|done].
  destruct (find (has_credentials u p) (users db)) as [user|]; simpl.
  - intros Heq%Ok_inj%spam_token_response_inj. eauto.
  - intros Heq%Ok_inj. apply (f_equal status) in Heq. discriminate.
Qed.

(** The bcrypt boilerplate's guard on a token signed for [claims]:
    accepted exactly while the clock is before [exp]. *)
Lemma guard_issued (f : jval → result response) (now now0 : Z)
    (user : user_row) :
  FullstackAiApp.token_required f now
    (bearer (jwt_encode (FullstackAiApp.login_claims now0 user)
               FullstackAiApp.SECRET_KEY))
  = if now <? now0 + 30 * 60 then f (JStr (row_username user))
    else Ok FullstackAiApp.token_invalid.
Proof.
  rewrite guard_bearer
    by (apply jwt_encode_nonempty || apply jwt_encode_not_space).
  rewrite jwt_decode_encode. unfold validate_exp.
  rewrite login_claims_exp.
  rewrite Z.ltb_antisym.
  destruct (now0 + 30 * 60 <=? now); simpl; [done|].
  unfold getitem. by rewrite login_claims_username.
Qed.

(** The spam detector's guard on a token of [create_token]: accepted at
    every clock reading. *)
Lemma spam_guard_issued (f : jval → result response) (now : Z)
    (u : string) :
  AiFullstackApp.token_required environ f now
    (bearer (AiFullstackApp.create_token environ u))
  = f (JStr u).
Proof.
  unfold AiFullstackApp.create_token.
  rewrite spam_guard_bearer
    by (apply jwt_encode_nonempty || apply jwt_encode_not_space).
  rewrite jwt_decode_encode. unfold validate_exp.
  rewrite lookup_singleton_ne by done. simpl.
  unfold getitem. by rewrite lookup_singleton_eq.
Qed.
End Issued.

(** C2 (as amended).  A token that the bcrypt boilerplate's login issued at
    clock reading [now0] (whole seconds) expires at [now0 + 1800]: the guard
    accepts it, as the user it was issued for, at every reading before
    that, and answers "Token is invalid" from that second on; so it is
    accepted if and only if [now < expires_at].  A token that the spam
    detector's login issued has no expiry and is accepted at every
    reading. *)
Theorem token_lifetime `{!Codec, !Bcrypt} (environ : gmap string string)
    (f : jval → result response) (now0 : Z) (db : database)
    (u p token : string) :
  (FullstackAiApp.login now0 db u (Some (JStr p))
   = Ok (FullstackAiApp.token_response token) →
   ∀ now, FullstackAiApp.token_required f now (bearer token)
     = if now <? now0 + 30 * 60 then f (JStr u)
       else Ok FullstackAiApp.token_invalid) ∧
  (AiFullstackApp.login environ now0 db u p
   = Ok (AiFullstackApp.token_response token) →
   ∀ now, AiFullstackApp.token_required environ f now (bearer token)
     = f (JStr u)).
Proof.
  split.
  - intros (user & ? & _ & _ & Hfind & _ & ->)%login_inv now.
    apply find_has_username in Hfind as [<- _]. apply guard_issued.
  - intros (_ & _ & ->)%spam_login_inv now. apply spam_guard_issued.
Qed.

Lemma token_lifetime_witness :
  Reference.guard 2799 (bearer (Reference.login_token 1000))
  = Reference.whoami (JStr "alice") ∧
  Reference.guard 2800 (bearer (Reference.login_token 1000))
  = Ok FullstackAiApp.token_invalid ∧
  Reference.spam_guard 2800 (bearer Reference.spam_token)
  = Reference.whoami (JStr "alice").
Proof.
  assert (@FullstackAiApp.login Reference.codec Reference.bcrypt 1000
            Reference.alice_store "alice" (Some (JStr "secret123"))
          = Ok (FullstackAiApp.token_response (Reference.login_token 1000)))
    as Hlogin by reflexivity.
  assert (@AiFullstackApp.login Reference.codec ∅ 1000
            {| online := true;
               locked := false;
               users := [{| row_id := 1; row_username := "alice";
                            row_password := "secret123" |}] |}
            "alice" "secret123"
          = Ok (AiFullstackApp.token_response Reference.spam_token))
    as Hspam by reflexivity.
  split; [|split].
  - exact (proj1 (@token_lifetime Reference.codec Reference.bcrypt ∅
      Reference.whoami 1000 Reference.alice_store "alice" "secret123"
      (Reference.login_token 1000)) Hlogin 2799).
  - exact (proj1 (@token_lifetime Reference.codec Reference.bcrypt ∅
      Reference.whoami 1000 Reference.alice_store "alice" "secret123"
      (Reference.login_token 1000)) Hlogin 2800).
  - exact (proj2 (@token_lifetime Reference.codec Reference.bcrypt ∅
      Reference.whoami 1000 _ "alice" "secret123" Reference.spam_token)
      Hspam 2800).
Defined.

(** C2 (as stated) fails.  At [now = expires_at] the signature of a token
    of the bcrypt boilerplate verifies and [now <= expires_at] holds, yet
    the guard rejects the token; and the spam detector's token, which has
    no expiry, is still accepted ten thousand million seconds later. *)
Lemma token_lifetime_counterexample :
  FullstackAiApp.login_claims 0 Reference.alice !! "exp"
  = Some (JInt 1800) ∧
  1800 <= 1800 ∧
  @jwt_decode Reference.codec (Reference.login_token 0)
    FullstackAiApp.SECRET_KEY ["HS256"] 1799
  = Ok (FullstackAiApp.login_claims 0 Reference.alice) ∧
  Reference.guard 1800 (bearer (Reference.login_token 0))
  = Ok FullstackAiApp.token_invalid ∧
  Reference.spam_guard 10000000000 (bearer Reference.spam_token)
  = Reference.whoami (JStr "alice").
Proof.
  split; [reflexivity|]. split; [lia|]. split.
  { unfold Reference.login_token. rewrite jwt_decode_encode. reflexivity. }
  split.
  - unfold Reference.guard, Reference.login_token.
    by rewrite guard_issued.
  - unfold Reference.spam_guard, Reference.spam_token.
    by rewrite spam_guard_issued.
Qed.

(** ** Registration *)

Lemma online_readable (db : database) : online db = true → readable db = true.
Proof. unfold readable. by intros ->. Qed.



Lemma users_left_open (e : exn) (db : database) :
  users (left_open e db) = users db.
Proof. by destruct e. Qed.



Section Registration.
Context `{!Bcrypt}.

Lemma register_fresh (salt : string) (db : database) (u p : string) :
  online db = true →
  existsb (has_username u) (users db) = false →
  ∃ db', FullstackAiApp.register salt db u p
         = (Ok FullstackAiApp.user_registered, db') ∧
    online db' = true ∧
    existsb (has_username u) (users db') = true ∧
    row_password <$> find (has_username u) (users db')
    = Some (hashpw p salt).
Proof.
  intros Hon Hex. unfold FullstackAiApp.register.
  destruct (insert_user_fresh db u (hashpw p salt) Hon Hex)
    as (db' & -> & Hon' & Hex' & Hfind).
  exists db'. by rewrite Hfind.
Qed.











End Registration.



(** ** Login *)

Lemma find_app_none (p : user_row → bool) (rows rows' : list user_row) :
  find p rows = None → find p (rows ++ rows') = find p rows'.
Proof.
  induction rows as [|r rows IH]; simpl; [done|].
  destruct (p r); [done|]. exact IH.
Qed.

Section Login.
Context `{!Codec, !Bcrypt}.
Variable environ : gmap string string.

(** Without a row for the username, the body's password is not looked
    at. *)
Lemma login_unknown (now : Z) (db : database) (u : string)
    (field : option jval) :
  readable db = true →
  find (has_username u) (users db) = None →
  FullstackAiApp.login now db u field
  = Ok FullstackAiApp.invalid_credentials.
Proof.
  intros Hon Hfind. unfold FullstackAiApp.login, select_by_username.
  rewrite Hon. simpl. by rewrite Hfind.
Qed.

Lemma login_known (now : Z) (db : database) (u p : string)
    (user : user_row) :
  readable db = true →
  find (has_username u) (users db) = Some user →
  FullstackAiApp.login now db u (Some (JStr p)) =
    match checkpw p (row_password user) with
    | Ok true =>
        Ok (FullstackAiApp.token_response
              (jwt_encode (FullstackAiApp.login_claims now user)
                 FullstackAiApp.SECRET_KEY))
    | Ok false => Ok FullstackAiApp.invalid_credentials
    | Raise e => Raise e
    end.
Proof.
  intros Hon Hfind. unfold FullstackAiApp.login, select_by_username.
  rewrite Hon. simpl. rewrite Hfind. simpl.
  by destruct (checkpw p (row_password user)) as [[]|].
Qed.

(** With a row for the username, a body whose password is missing or is
    not a string makes the view raise. *)
Lemma login_known_malformed (now : Z) (db : database) (u : string)
    (user : user_row) (field : option jval) :
  readable db = true →
  find (has_username u) (users db) = Some user →
  (∀ p, field ≠ Some (JStr p)) →
  FullstackAiApp.login now db u field
  = Raise match field with
          | Some _ => AttributeError
          | None => KeyError
          end.
Proof.
  intros Hon Hfind Hfield. unfold FullstackAiApp.login, select_by_username.
  rewrite Hon. simpl. rewrite Hfind.
  destruct field as [[p|z]|]; simpl; [|done..]. by destruct (Hfield p).
Qed.

Lemma spam_login_no_match (now : Z) (db : database) (u p : string) :
  readable db = true →
  find (has_credentials u p) (users db) = None →
  AiFullstackApp.login environ now db u p
  = Ok AiFullstackApp.invalid_credentials.
Proof.
  intros Hon Hfind. unfold AiFullstackApp.login, select_by_credentials.
  rewrite Hon. simpl. by rewrite Hfind.
Qed.

Lemma spam_login_match (now : Z) (db : database) (u p : string)
    (user : user_row) :
  readable db = true →
  find (has_credentials u p) (users db) = Some user →
  AiFullstackApp.login environ now db u p
  = Ok (AiFullstackApp.token_response
          (AiFullstackApp.create_token environ u)).
Proof.
  intros Hon Hfind. unfold AiFullstackApp.login, select_by_credentials.
  rewrite Hon. simpl. by rewrite Hfind.
Qed.

(** A store that cannot be read makes both logins raise; nothing catches
    it. *)
Lemma login_offline (now : Z) (db : database) (u p : string)
    (field : option jval) :
  readable db = false →
  FullstackAiApp.login now db u field = Raise OperationalError ∧
  AiFullstackApp.login environ now db u p = Raise OperationalError.
Proof.
  intros Hoff.
  unfold FullstackAiApp.login, AiFullstackApp.login,
    select_by_username, select_by_credentials.
  by rewrite Hoff.
Qed.
End Login.

(** C4 (the bcrypt boilerplate's login misses a case).  On a store that can
    be read, with unique usernames, let [unknown] have no row and [known]
    have the row [user].

    What holds: a login for [unknown] is answered "Invalid credentials"
    (401) whatever the body holds as password; a login for [known] with a
    password that [bcrypt.checkpw] rejects gets the same answer.  In the
    spam detector both logins are answered "Invalid credentials" (403).

    What fails: the bcrypt boilerplate reads [data['password']] and calls
    [bcrypt.checkpw] only after a row was found.  For [known], a body
    without a password raises KeyError, a password that is not a string
    raises AttributeError, and an exception of [bcrypt.checkpw] leaves the
    view: status 500, where the same body for [unknown] gets 401.  The two
    answers tell a caller whether the username is registered. *)
Theorem login_failure_reveals_username `{!Codec, !Bcrypt}
    (environ : gmap string string) (now : Z) (db : database)
    (unknown known : string) (user : user_row) :
  readable db = true →
  unique_usernames db = true →
  find (has_username unknown) (users db) = None →
  find (has_username known) (users db) = Some user →
  (∀ field, FullstackAiApp.login now db unknown field
            = Ok FullstackAiApp.invalid_credentials) ∧
  (∀ wrong, checkpw wrong (row_password user) = Ok false →
     FullstackAiApp.login now db known (Some (JStr wrong))
     = Ok FullstackAiApp.invalid_credentials) ∧
  (http_status (FullstackAiApp.login now db unknown None) = 401 ∧
   FullstackAiApp.login now db known None = Raise KeyError ∧
   http_status (FullstackAiApp.login now db known None) = 500) ∧
  (∀ z, http_status (FullstackAiApp.login now db unknown (Some (JInt z)))
        = 401 ∧
        FullstackAiApp.login now db known (Some (JInt z))
        = Raise AttributeError ∧
        http_status (FullstackAiApp.login now db known (Some (JInt z)))
        = 500) ∧
  (∀ p e, checkpw p (row_password user) = Raise e →
     http_status (FullstackAiApp.login now db unknown (Some (JStr p)))
     = 401 ∧
     FullstackAiApp.login now db known (Some (JStr p)) = Raise e ∧
     http_status (FullstackAiApp.login now db known (Some (JStr p)))
     = 500) ∧
  (∀ anything wrong, row_password user ≠ wrong →
     AiFullstackApp.login environ now db unknown anything
     = Ok AiFullstackApp.invalid_credentials ∧
     AiFullstackApp.login environ now db known wrong
     = Ok AiFullstackApp.invalid_credentials).
Proof.
  intros Hon Huniq%bool_decide_eq_true Hunknown Hknown.
  assert (∀ field, FullstackAiApp.login now db unknown field
                   = Ok FullstackAiApp.invalid_credentials) as Hun
    by (intros field; by apply login_unknown).
  split; [exact Hun|]. split.
  { intros wrong Hpw.
    rewrite (login_known now db known wrong user Hon Hknown).
    by rewrite Hpw. }
  split.
  { rewrite Hun.
    rewrite (login_known_malformed now db known user None Hon Hknown)
      by done.
    done. }
  split.
  { intros z. rewrite Hun.
    rewrite (login_known_malformed now db known user (Some (JInt z))
               Hon Hknown) by done.
    done. }
  split.
  { intros p e Hpw. rewrite Hun.
    rewrite (login_known now db known p user Hon Hknown), Hpw. done. }
  intros anything wrong Hpw. split.
  - apply spam_login_no_match; [done|].
    by apply find_credentials_unknown.
  - apply spam_login_no_match; [done|].
    by apply (find_credentials_wrong known wrong (users db) user).
Qed.

Lemma login_failure_reveals_username_witness :
  (∀ field, @FullstackAiApp.login Reference.codec Reference.bcrypt 0
              Reference.alice_store "bob" field
            = Ok FullstackAiApp.invalid_credentials) ∧
  (∀ wrong, @checkpw Reference.bcrypt wrong "salt$secret123" = Ok false →
     @FullstackAiApp.login Reference.codec Reference.bcrypt 0
       Reference.alice_store "alice" (Some (JStr wrong))
     = Ok FullstackAiApp.invalid_credentials) ∧
  (http_status (@FullstackAiApp.login Reference.codec Reference.bcrypt 0
                  Reference.alice_store "bob" None) = 401 ∧
   @FullstackAiApp.login Reference.codec Reference.bcrypt 0
     Reference.alice_store "alice" None = Raise KeyError ∧
   http_status (@FullstackAiApp.login Reference.codec Reference.bcrypt 0
                  Reference.alice_store "alice" None) = 500) ∧
  (∀ z, http_status (@FullstackAiApp.login Reference.codec Reference.bcrypt
                       0 Reference.alice_store "bob" (Some (JInt z)))
        = 401 ∧
        @FullstackAiApp.login Reference.codec Reference.bcrypt 0
          Reference.alice_store "alice" (Some (JInt z))
        = Raise AttributeError ∧
        http_status (@FullstackAiApp.login Reference.codec Reference.bcrypt
                       0 Reference.alice_store "alice" (Some (JInt z)))
        = 500) ∧
  (∀ p e, @checkpw Reference.bcrypt p "salt$secret123" = Raise e →
     http_status (@FullstackAiApp.login Reference.codec Reference.bcrypt 0
                    Reference.alice_store "bob" (Some (JStr p)))
     = 401 ∧
     @FullstackAiApp.login Reference.codec Reference.bcrypt 0
       Reference.alice_store "alice" (Some (JStr p)) = Raise e ∧
     http_status (@FullstackAiApp.login Reference.codec Reference.bcrypt 0
                    Reference.alice_store "alice" (Some (JStr p)))
     = 500) ∧
  (∀ anything wrong, "salt$secret123" ≠ wrong →
     @AiFullstackApp.login Reference.codec ∅ 0
       Reference.alice_store "bob" anything
     = Ok AiFullstackApp.invalid_credentials ∧
     @AiFullstackApp.login Reference.codec ∅ 0
       Reference.alice_store "alice" wrong
     = Ok AiFullstackApp.invalid_credentials).
Proof.
  apply (@login_failure_reveals_username Reference.codec Reference.bcrypt ∅
           0 Reference.alice_store "bob" "alice" Reference.alice);
    reflexivity.
Defined.

(** ** What is stored, and how a password is checked *)

Lemma register_user_store (db : database) (u p : string) :
  online db = true →
  existsb (has_username u) (users db) = false →
  (AiFullstackApp.register_user db u p).2
  = {| online := true;
       locked := locked db;
       users := users db ++
         [{| row_id := next_rowid (users db);
             row_username := u; row_password := p |}] |}.
Proof.
  intros Hon Hex. unfold AiFullstackApp.register_user, insert_user.
  by rewrite Hon, Hex.
Qed.

Lemma has_credentials_own (u p attempt : string) (i : Z) :
  has_credentials u attempt
    {| row_id := i; row_username := u; row_password := p |}
  = bool_decide (p = attempt).
Proof.
  unfold has_credentials. simpl. by rewrite bool_decide_eq_true_2.
Qed.

(** C5 (as amended).  For a registration of a new username on a reachable
    store: the bcrypt boilerplate stores [bcrypt.hashpw(password, salt)]
    with the salt of [bcrypt.gensalt()], and its login answers 200 exactly
    when [bcrypt.checkpw] accepts the attempt against that stored value;
    the spam detector stores the password itself, and its login answers 200
    exactly when the attempt equals the stored password; the basic-auth
    guard lets a call through on the same comparison of texts. *)
Theorem password_storage `{!Codec, !Bcrypt} (environ : gmap string string)
    (salt : string) (db : database) (u p : string) :
  online db = true →
  existsb (has_username u) (users db) = false →
  (let db' := (FullstackAiApp.register salt db u p).2 in
   row_password <$> find (has_username u) (users db')
   = Some (hashpw p salt) ∧
   ∀ now attempt,
     http_status (FullstackAiApp.login now db' u (Some (JStr attempt)))
     = 200
     ↔ checkpw attempt (hashpw p salt) = Ok true) ∧
  (let db' := (AiFullstackApp.register_user db u p).2 in
   row_password <$> find (has_username u) (users db') = Some p ∧
   (∀ now attempt,
      http_status (AiFullstackApp.login environ now db' u attempt) = 200
      ↔ attempt = p) ∧
   (∀ view attempt,
      BasicAuthApp.auth_required view db' (Some (u, attempt))
      = if bool_decide (p = attempt) then view
        else Ok BasicAuthApp.invalid_credentials)).
Proof.
  intros Hon Hex. split.
  - destruct (register_fresh salt db u p Hon Hex)
      as (db' & -> & Hon' & Hex' & Hstored).
    cbv zeta. simpl snd. split; [done|]. intros now attempt.
    apply fmap_Some in Hstored as (user & Hfind & Hpw).
    rewrite (login_known now db' u attempt user
               (online_readable _ Hon') Hfind), <- Hpw.
    unfold http_status.
    destruct (checkpw attempt (hashpw p salt)) as [[]|]; split;
      intros Hyp; try done; discriminate Hyp.
  - cbv zeta. rewrite (register_user_store db u p Hon Hex). simpl users.
    pose proof (existsb_find_none _ _ Hex) as Hnone.
    split.
    + rewrite (find_app_none _ _ _ Hnone). simpl.
      unfold has_username. simpl. by rewrite bool_decide_eq_true_2.
    + split.
      * intros now attempt.
        unfold AiFullstackApp.login, select_by_credentials, readable.
        simpl.
        rewrite (find_app_none _ _ _
                   (find_credentials_unknown u attempt _ Hnone)).
        simpl. rewrite has_credentials_own.
        unfold http_status.
        case_bool_decide as Heq; split; intros Hyp; try done;
          discriminate Hyp.
      * intros view attempt.
        unfold BasicAuthApp.auth_required, select_by_credentials, readable.
        simpl.
        rewrite (find_app_none _ _ _
                   (find_credentials_unknown u attempt _ Hnone)).
        simpl. rewrite has_credentials_own.
        by case_bool_decide.
Qed.

Lemma password_storage_witness :
  row_password <$> find (has_username "alice")
    (users (@FullstackAiApp.register Reference.bcrypt "salt"
              Reference.empty_store "alice" "secret123").2)
  = Some "salt$secret123" ∧
  http_status
    (@FullstackAiApp.login Reference.codec Reference.bcrypt 0
       (@FullstackAiApp.register Reference.bcrypt "salt"
          Reference.empty_store "alice" "secret123").2
       "alice" (Some (JStr "secret123"))) = 200 ∧
  row_password <$> find (has_username "alice")
    (users (AiFullstackApp.register_user Reference.empty_store
              "alice" "secret123").2)
  = Some "secret123" ∧
  http_status
    (@AiFullstackApp.login Reference.codec ∅ 0
       (AiFullstackApp.register_user Reference.empty_store
          "alice" "secret123").2
       "alice" "secret123") = 200.
Proof.
  destruct (@password_storage Reference.codec Reference.bcrypt ∅ "salt"
              Reference.empty_store "alice" "secret123" eq_refl eq_refl)
    as [[Hhash Hcheck] (Hplain & Hequal & _)].
  split; [exact Hhash|]. split; [apply Hcheck; reflexivity|].
  split; [exact Hplain|]. apply Hequal; reflexivity.
Defined.

(** C5 (as stated) fails: the spam detector's [register_user] stores the
    password as it was typed, its login finds the row by comparing that
    text, and so does the basic-auth guard. *)
Lemma password_storage_counterexample :
  AiFullstackApp.register_user Reference.empty_store "alice" "secret123"
  = (Ok AiFullstackApp.registered_successfully,
     {| online := true;
        locked := false;
        users := [{| row_id := 1; row_username := "alice";
                     row_password := "secret123" |}] |}) ∧
  select_by_credentials
    (AiFullstackApp.register_user Reference.empty_store
       "alice" "secret123").2 "alice" "secret123"
  = Ok (Some {| row_id := 1; row_username := "alice";
                row_password := "secret123" |}) ∧
  BasicAuthApp.auth_required (Reference.whoami (JStr "alice"))
    (AiFullstackApp.register_user Reference.empty_store
       "alice" "secret123").2 (Some ("alice", "secret123"))
  = Reference.whoami (JStr "alice").
Proof. repeat split. Qed.

(** C6 (as amended).  Every issued token is a string of three parts
    separated by dots, whose middle part decodes to the signed claims.  The
    claims of the bcrypt boilerplate's login are [username] and [exp], with
    [exp] 1800 seconds after the clock reading of the login, hence later
    than it; the claims of the spam detector's [create_token] are [user]
    alone, without any expiry.  Neither issuer writes a [sub] claim. *)
Theorem token_structure `{!Codec} (environ : gmap string string) (now : Z)
    (user : user_row) (u : string) :
  (∃ header payload signature,
     split_on "." (jwt_encode (FullstackAiApp.login_claims now user)
                     FullstackAiApp.SECRET_KEY)
     = [header; payload; signature] ∧
     b64decode payload ≫= json_loads
     = Some (FullstackAiApp.login_claims now user)) ∧
  dom (FullstackAiApp.login_claims now user)
  = ({[ "username"; "exp" ]} : gset string) ∧
  FullstackAiApp.login_claims now user !! "username"
  = Some (JStr (row_username user)) ∧
  FullstackAiApp.login_claims now user !! "exp"
  = Some (JInt (now + 1800)) ∧
  now < now + 1800 ∧
  (∃ header payload signature,
     split_on "." (AiFullstackApp.create_token environ u)
     = [header; payload; signature] ∧
     b64decode payload ≫= json_loads
     = Some ({[ "user" := JStr u ]} : dict)) ∧
  dom ({[ "user" := JStr u ]} : dict) = ({[ "user" ]} : gset string).
Proof.
  assert (∀ (claims : dict) key, ∃ header payload signature,
     split_on "." (jwt_encode claims key) = [header; payload; signature] ∧
     b64decode payload ≫= json_loads = Some claims) as Hparts.
  { intros claims key. eexists _, _, _. unfold jwt_encode. cbv zeta.
    rewrite !append_dot, append_assoc, append_cons.
    rewrite (split_on_app "." _ _ (b64encode_not_dot _)).
    rewrite (split_on_app "." _ _ (b64encode_not_dot _)).
    rewrite (split_on_no_sep "." _ (b64encode_not_dot _)).
    split; [reflexivity|].
    rewrite b64decode_encode. simpl. apply json_loads_dumps. }
  split; [apply Hparts|]. split.
  { unfold FullstackAiApp.login_claims.
    rewrite dom_insert_L, dom_singleton_L. done. }
  split; [apply login_claims_username|].
  split; [apply login_claims_exp|].
  split; [lia|]. split; [apply Hparts|].
  apply dom_singleton_L.
Qed.

(** C6 (as stated) fails: the claims of a token of the spam detector's
    [create_token] are the user alone; there is no [exp] and no [sub]. *)
Lemma token_structure_counterexample :
  @jwt_decode Reference.codec Reference.spam_token "mysecret" ["HS256"] 0
  = Ok {[ "user" := JStr "alice" ]} ∧
  ({[ "user" := JStr "alice" ]} : dict) !! "exp" = None ∧
  ({[ "user" := JStr "alice" ]} : dict) !! "sub" = None.
Proof.
  split; [|split; reflexivity].
  unfold Reference.spam_token, AiFullstackApp.create_token.
  change (AiFullstackApp.SECRET_KEY ∅) with "mysecret".
  rewrite jwt_decode_encode. reflexivity.
Qed.

(** ** The client *)

Lemma logout_clears (st : ReactClient.client) :
  ReactClient.token (ReactClient.logout st) = None ∧
  ReactClient.username (ReactClient.logout st) = None ∧
  ReactClient.localStorage (ReactClient.logout st) !! "token" = None ∧
  ReactClient.localStorage (ReactClient.logout st) !! "username" = None ∧
  ReactClient.authenticated (ReactClient.logout st) = false.
Proof.
  unfold ReactClient.logout, ReactClient.authenticated. simpl.
  split; [done|]. split; [done|]. split; [|split; [|done]].
  - rewrite lookup_delete_ne by done. apply lookup_delete_eq.
  - apply lookup_delete_eq.
Qed.

Lemma handlePredict_other_status (st : ReactClient.client) (status : Z)
    (data : option dict) :
  status ≠ 401 →
  let st' :=
    ReactClient.handlePredict st (ReactClient.Response status data) in
  ReactClient.token st' = ReactClient.token st ∧
  ReactClient.username st' = ReactClient.username st ∧
  ReactClient.localStorage st' = ReactClient.localStorage st ∧
  ReactClient.authenticated st' = ReactClient.authenticated st.
Proof.
  intros Hne. unfold ReactClient.handlePredict.
  rewrite bool_decide_eq_false_2 by done. by destruct data.
Qed.

Lemma session_token :
  ReactClient.token Reference.session = Some (Reference.login_token 0) ∧
  ReactClient.localStorage Reference.session !! "token"
  = Some (Reference.login_token 0) ∧
  ReactClient.authenticated Reference.session = true.
Proof.
  unfold Reference.session, ReactClient.handleLogin,
    ReactClient.authenticated.
  cbn [ReactClient.token ReactClient.localStorage].
  split; [reflexivity|]. split.
  - rewrite lookup_insert_ne by done. apply lookup_insert_eq.
  - apply truthy_some. apply jwt_encode_nonempty.
Qed.

(** C7 (as amended).  When a protected call is answered with status 401,
    [handlePredict] logs out: the token and the username are gone from the
    state and from localStorage and the client is unauthenticated.  An
    answer with any other status, such as the 403 of the guards, leaves the
    token and the username in the state and in localStorage. *)
Theorem unauthorized_clears_session (st : ReactClient.client) (status : Z)
    (data : option dict) :
  (status = 401 →
   ReactClient.handlePredict st (ReactClient.Response status data)
   = ReactClient.logout st ∧
   ReactClient.token (ReactClient.logout st) = None ∧
   ReactClient.username (ReactClient.logout st) = None ∧
   ReactClient.localStorage (ReactClient.logout st) !! "token" = None ∧
   ReactClient.localStorage (ReactClient.logout st) !! "username" = None ∧
   ReactClient.authenticated (ReactClient.logout st) = false) ∧
  (status ≠ 401 →
   let st' :=
     ReactClient.handlePredict st (ReactClient.Response status data) in
   ReactClient.token st' = ReactClient.token st ∧
   ReactClient.username st' = ReactClient.username st ∧
   ReactClient.localStorage st' = ReactClient.localStorage st ∧
   ReactClient.authenticated st' = ReactClient.authenticated st).
Proof.
  split.
  - intros ->. split; [done|]. by apply logout_clears.
  - apply handlePredict_other_status.
Qed.

Lemma unauthorized_clears_session_witness :
  ReactClient.handlePredict Reference.session
    (ReactClient.Response 401 None)
  = ReactClient.logout Reference.session ∧
  ReactClient.token
    (ReactClient.handlePredict Reference.session
       (ReactClient.Response 403 None))
  = ReactClient.token Reference.session.
Proof.
  split.
  - apply (proj1 (unauthorized_clears_session Reference.session 401 None)).
    reflexivity.
  - apply (proj2 (unauthorized_clears_session Reference.session 403 None)).
    discriminate.
Defined.

(** C7 (as stated) fails: the client holds the token of a login at clock
    reading 0 and calls the protected view of the bcrypt boilerplate at
    reading 1800; the guard rejects the expired token with status 403, and
    the client stays authenticated with the token still in localStorage. *)
Lemma unauthorized_clears_session_counterexample :
  Reference.guard 1800 (ReactClient.authorization Reference.session)
  = Ok FullstackAiApp.token_invalid ∧
  status FullstackAiApp.token_invalid = 403 ∧
  ReactClient.authenticated
    (ReactClient.handlePredict Reference.session
       (ReactClient.fetch_reply
          (Reference.guard 1800
             (ReactClient.authorization Reference.session)))) = true ∧
  ReactClient.localStorage
    (ReactClient.handlePredict Reference.session
       (ReactClient.fetch_reply
          (Reference.guard 1800
             (ReactClient.authorization Reference.session)))) !! "token"
  = Some (Reference.login_token 0).
Proof.
  destruct session_token as (Htoken & Hstored & Hauth).
  assert (Reference.guard 1800 (ReactClient.authorization Reference.session)
          = Ok FullstackAiApp.token_invalid) as Hreply.
  { unfold ReactClient.authorization. rewrite Htoken.
    change (default "null" (Some (Reference.login_token 0)))
      with (Reference.login_token 0).
    unfold Reference.guard, Reference.login_token.
    rewrite guard_issued. reflexivity. }
  rewrite Hreply.
  change (ReactClient.fetch_reply (Ok FullstackAiApp.token_invalid))
    with (ReactClient.Response 403
            (Some (body FullstackAiApp.token_invalid))).
  destruct (handlePredict_other_status Reference.session 403
              (Some (body FullstackAiApp.token_invalid)))
    as (_ & _ & Hls & Ha); [discriminate|].
  cbv zeta in Hls, Ha. rewrite Hls, Ha.
  split; [reflexivity|]. split; [reflexivity|]. split; [exact Hauth|].
  exact Hstored.
Qed.

(** ** A store that cannot be reached *)

(** C8: the code at the failing input.  With the store unreachable and no
    user registered, [register] of the bcrypt boilerplate answers 409 "User
    already exists"; [register_user] of the spam detector and both logins
    let the OperationalError leave the view. *)
Theorem register_outage_reported_as_duplicate :
  users Reference.unreachable_store = [] ∧
  @FullstackAiApp.register Reference.bcrypt "salt"
    Reference.unreachable_store "alice" "secret123"
  = (Ok FullstackAiApp.user_already_exists, Reference.unreachable_store) ∧
  status FullstackAiApp.user_already_exists = 409 ∧
  AiFullstackApp.register_user Reference.unreachable_store
    "alice" "secret123"
  = (Raise OperationalError, Reference.unreachable_store) ∧
  @FullstackAiApp.login Reference.codec Reference.bcrypt 0
    Reference.unreachable_store "alice" (Some (JStr "secret123"))
  = Raise OperationalError ∧
  @AiFullstackApp.login Reference.codec ∅ 0
    Reference.unreachable_store "alice" "secret123"
  = Raise OperationalError.
Proof. repeat split. Qed.

(** ** The spam detector's guard and issuer *)

(** C9.  When the Authorization header is present but its value has no
    second whitespace-separated part, the spam detector's guard raises
    IndexError: the lookup [split()[1]] runs before the [try], so the
    request ends in a server error and in neither of the guard's two
    rejections. *)
Theorem guard_index_error `{!Codec} (environ : gmap string string)
    (f : jval → result response) (now : Z) (headers : gmap string string)
    (value : string) :
  headers !! "Authorization" = Some value →
  split value !! 1%nat = None →
  AiFullstackApp.token_required environ f now headers = Raise IndexError ∧
  http_status (AiFullstackApp.token_required environ f now headers) = 500.
Proof.
  intros Hv Hs. unfold AiFullstackApp.token_required.
  by rewrite Hv, Hs.
Qed.

Lemma guard_index_error_witness :
  Reference.spam_guard 0 {[ "Authorization" := "Bearer" ]}
  = Raise IndexError ∧
  http_status (Reference.spam_guard 0 {[ "Authorization" := "Bearer" ]})
  = 500.
Proof.
  apply (@guard_index_error Reference.codec ∅ Reference.whoami 0
           {[ "Authorization" := "Bearer" ]} "Bearer"); reflexivity.
Defined.

Section Issuers.
Context `{!Codec}.
Variable environ : gmap string string.

(** What [jwt.decode] reads from a token of [create_token]. *)
Lemma create_token_claims (u : string) (now : Z) :
  jwt_decode (AiFullstackApp.create_token environ u)
    (AiFullstackApp.SECRET_KEY environ) ["HS256"] now
  = Ok {[ "user" := JStr u ]}.
Proof.
  unfold AiFullstackApp.create_token. rewrite jwt_decode_encode.
  unfold validate_exp. by rewrite lookup_singleton_ne.
Qed.

Lemma create_token_inj (u u' : string) :
  AiFullstackApp.create_token environ u'
  = AiFullstackApp.create_token environ u →
  u' = u.
Proof.
  intros Heq.
  pose proof (create_token_claims u' 0) as Hdec. rewrite Heq in Hdec.
  rewrite create_token_claims in Hdec. apply Ok_inj in Hdec.
  apply (f_equal (fun claims : dict => claims !! "user")) in Hdec.
  rewrite !lookup_singleton_eq in Hdec. congruence.
Qed.

(** By contrast, the bcrypt boilerplate signs the clock reading of the
    login into the token: logins at two readings give two tokens. *)
Lemma login_token_depends_on_time (user : user_row) (now1 now2 : Z) :
  jwt_encode (FullstackAiApp.login_claims now1 user)
    FullstackAiApp.SECRET_KEY
  = jwt_encode (FullstackAiApp.login_claims now2 user)
      FullstackAiApp.SECRET_KEY →
  now1 = now2.
Proof.
  intros Heq.
  pose proof (jwt_decode_encode (FullstackAiApp.login_claims now1 user)
                FullstackAiApp.SECRET_KEY (Z.min now1 now2)) as Hdec.
  rewrite Heq, jwt_decode_encode in Hdec.
  unfold validate_exp in Hdec. rewrite !login_claims_exp in Hdec.
  destruct (now2 + 30 * 60 <=? Z.min now1 now2) eqn:H2; [lia|].
  destruct (now1 + 30 * 60 <=? Z.min now1 now2) eqn:H1; [lia|].
  simpl in Hdec. apply Ok_inj in Hdec.
  apply (f_equal (fun claims : dict => claims !! "exp")) in Hdec.
  rewrite !login_claims_exp in Hdec.
  assert (now1 + 30 * 60 = now2 + 30 * 60) by congruence. lia.
Qed.
End Issuers.

(** C10.  The spam detector answers every successful login of a user with
    one and the same token: at any two clock readings, on any two stores
    that hold credentials of the user, whatever password matched and
    whatever else the stores hold.  The login does issue it, it is
    [create_token] of the username, and [jwt.decode] reads from it, at
    every clock reading, the claim [user] and nothing else (no expiry, no
    time of issue, no nonce).  Tokens of different usernames differ. *)
Theorem create_token_time_independent `{!Codec}
    (environ : gmap string string) (db1 db2 : database)
    (u p1 p2 : string) (row1 row2 : user_row) (now1 now2 : Z) :
  readable db1 = true →
  find (has_credentials u p1) (users db1) = Some row1 →
  readable db2 = true →
  find (has_credentials u p2) (users db2) = Some row2 →
  ∃ token,
    AiFullstackApp.login environ now1 db1 u p1
    = Ok (AiFullstackApp.token_response token) ∧
    AiFullstackApp.login environ now2 db2 u p2
    = Ok (AiFullstackApp.token_response token) ∧
    token = AiFullstackApp.create_token environ u ∧
    (∀ now, jwt_decode token (AiFullstackApp.SECRET_KEY environ)
              ["HS256"] now
            = Ok {[ "user" := JStr u ]}) ∧
    (∀ u', AiFullstackApp.create_token environ u' = token → u' = u).
Proof.
  intros Hon1 Hrow1 Hon2 Hrow2.
  exists (AiFullstackApp.create_token environ u).
  split; [by apply (spam_login_match environ now1 db1 u p1 row1)|].
  split; [by apply (spam_login_match environ now2 db2 u p2 row2)|].
  split; [done|]. split.
  - intros now. apply create_token_claims.
  - intros u'. apply create_token_inj.
Qed.

Lemma create_token_time_independent_witness :
  ∃ token,
    @AiFullstackApp.login Reference.codec ∅ 0
      {| online := true; locked := false;
         users := [{| row_id := 1; row_username := "alice";
                      row_password := "secret123" |}] |}
      "alice" "secret123"
    = Ok (AiFullstackApp.token_response token) ∧
    @AiFullstackApp.login Reference.codec ∅ 10000000000
      {| online := false; locked := true;
         users := [{| row_id := 1; row_username := "bob";
                      row_password := "pw" |};
                   {| row_id := 7; row_username := "alice";
                      row_password := "changed" |}] |}
      "alice" "changed"
    = Ok (AiFullstackApp.token_response token) ∧
    token = @AiFullstackApp.create_token Reference.codec ∅ "alice" ∧
    (∀ now, @jwt_decode Reference.codec token (AiFullstackApp.SECRET_KEY ∅)
              ["HS256"] now
            = Ok {[ "user" := JStr "alice" ]}) ∧
    (∀ u', @AiFullstackApp.create_token Reference.codec ∅ u' = token →
           u' = "alice").
Proof.
  apply (@create_token_time_independent Reference.codec ∅ _ _ "alice"
           "secret123" "changed"
           {| row_id := 1; row_username := "alice";
              row_password := "secret123" |}
           {| row_id := 7; row_username := "alice";
              row_password := "changed" |} 0 10000000000);
    reflexivity.
Defined.


(** * The protected views and the clients

    The rest of the four applications: the views behind the guards with
    their log tables, the start-up seeding of the basic-auth starter, and
    the React components that call the backends. *)

(** ** backend/app.py of the bcrypt boilerplate: the protected view *)

Module FullstackAiViews.
(** A row of [logs (id, username, input, output, timestamp)]; the
    timestamp column holds the ISO text of the clock reading. *)
Record log_row : Type := {
  log_id : Z;
  log_username : jval;
  log_input : string;
  log_output : string;
  log_timestamp : Z;
}.

(** The database file: the users table and the logs table. *)
Record site : Type := {
  accounts : database;
  logs : list log_row;
}.

Definition next_log_id (rows : list log_row) : Z :=
  1 + foldr Z.max 0 (log_id <$> rows).

Definition output_response (output : string) : response :=
  {| body := {[ "output" := JStr output ]}; status := 200 |}.

(** [predict(current_user)]; [input] is the value of the key [input] of
    the request body, a string when the key is there. *)
Definition predict (now : Z) (s : site) (input : option string)
    (current_user : jval) : result response * site :=
  match input with
  | None => (Raise KeyError, s)
  | Some input_data =>
      let output := String.rev input_data in
      if negb (online (accounts s)) then (Raise OperationalError, s)
      else
        (Ok (output_response output),
         {| accounts := accounts s;
            logs := logs s ++
              [{| log_id := next_log_id (logs s);
                  log_username := current_user;
                  log_input := input_data;
                  log_output := output;
                  log_timestamp := now |}] |})
  end.

Section Views.
Context `{!Codec}.

(** What the guard decides before it calls the view: a rejection, or the
    user the view is called with. *)
Definition guard_decision (now : Z) (headers : gmap string string)
    : response + jval :=
  let token := headers !! "Authorization" in
  if negb (truthy token) then inl FullstackAiApp.token_missing
  else
    match FullstackAiApp.current_user_of now (default "" token) with
    | Raise _ => inl FullstackAiApp.token_invalid
    | Ok current_user => inr current_user
    end.

(** [POST /api/predict]: [predict] behind [@token_required]. *)
Definition api_predict (now : Z) (s : site) (headers : gmap string string)
    (input : option string) : result response * site :=
  match guard_decision now headers with
  | inl rejection => (Ok rejection, s)
  | inr current_user => predict now s input current_user
  end.
End Views.
End FullstackAiViews.

(** ** backend/app.py of the spam-detector app: the views *)

Module AiFullstackViews.
(** A row of [logs (id, text, prediction, timestamp)]. *)
Record log_row : Type := {
  log_id : Z;
  log_text : string;
  log_prediction : Z;
  log_timestamp : Z;
}.

Record site : Type := {
  accounts : database;
  logs : list log_row;
}.

Definition next_log_id (rows : list log_row) : Z :=
  1 + foldr Z.max 0 (log_id <$> rows).

Definition prediction_response (prediction : Z) : response :=
  {| body := {[ "prediction" := JInt prediction ]}; status := 200 |}.

Section Views.
Context `{!Codec}.
Variable environ : gmap string string.
(** The unpickled classifier: [int(model([text])[0])]. *)
Variable model : string → Z.

(** [predict(current_user)]; [text] is the value of the key [text] of the
    request body, a string when the key is there. *)
Definition predict (now : Z) (s : site) (text : option string)
    (current_user : jval) : result response * site :=
  let text := default "" text in
  let result := model text in
  if negb (online (accounts s)) then (Raise OperationalError, s)
  else
    (Ok (prediction_response result),
     {| accounts := accounts s;
        logs := logs s ++
          [{| log_id := next_log_id (logs s);
              log_text := text;
              log_prediction := result;
              log_timestamp := now |}] |}).

(** What the guard decides before it calls the view; the split of the
    header may raise. *)
Definition guard_decision (now : Z) (headers : gmap string string)
    : result (response + jval) :=
  token ← match headers !! "Authorization" with
          | Some value =>
              part ← expect IndexError (split value !! 1%nat);
              Ok (Some part)
          | None => Ok None
          end;
  if negb (truthy token) then Ok (inl AiFullstackApp.token_missing)
  else
    match data ← jwt_decode (default "" token)
                   (AiFullstackApp.SECRET_KEY environ) ["HS256"] now;
          getitem data "user" with
    | Raise _ => Ok (inl AiFullstackApp.invalid_token)
    | Ok current_user => Ok (inr current_user)
    end.

(** [POST /predict]: [predict] behind [@token_required]. *)
Definition api_predict (now : Z) (s : site) (headers : gmap string string)
    (text : option string) : result response * site :=
  match guard_decision now headers with
  | Raise e => (Raise e, s)
  | Ok (inl rejection) => (Ok rejection, s)
  | Ok (inr current_user) => predict now s text current_user
  end.

(** [POST /register]. *)
Definition register (s : site) (username password : string)
    : result response * site :=
  let '(r, db) :=
    AiFullstackApp.register_user (accounts s) username password in
  (r, {| accounts := db; logs := logs s |}).
End Views.
End AiFullstackViews.

(** ** backend/app.py of the basic-auth starter *)

Module BasicAuthViews.
(** [INSERT OR IGNORE INTO users (username, password) VALUES (?, ?)]. *)
Definition insert_or_ignore (db : database) (u p : string)
    : result database :=
  if negb (online db) then Raise OperationalError
  else if existsb (has_username u) (users db) then Ok db
  else insert_user db u p.

(** The seeding at start-up, after the tables have been created. *)
Definition startup (db : database) : result database :=
  insert_or_ignore db "admin" "admin123".

(** What the guard decides before it calls the view: a rejection or
    nothing. *)
Definition guard_decision (db : database) (auth : option (string * string))
    : result (option response) :=
  match auth with
  | None => Ok (Some BasicAuthApp.auth_required_response)
  | Some (username, password) =>
      user ← select_by_credentials db username password;
      match user with
      | Some _ => Ok None
      | None => Ok (Some BasicAuthApp.invalid_credentials)
      end
  end.

(** The credentials frontend/src/App.js sends with every call. *)
Definition shipped_credentials : option (string * string) :=
  Some ("admin", "admin123").

Section Views.
(** The unpickled classifier: [int(model([text])[0])]. *)
Variable model : string → Z.

(** [predict()]; the tables are those of the spam-detector app. *)
Definition predict (now : Z) (s : AiFullstackViews.site)
    (text : option string) : result response * AiFullstackViews.site :=
  let text := default "" text in
  let result := model text in
  if negb (online (AiFullstackViews.accounts s))
  then (Raise OperationalError, s)
  else
    (Ok (AiFullstackViews.prediction_response result),
     {| AiFullstackViews.accounts := AiFullstackViews.accounts s;
        AiFullstackViews.logs := AiFullstackViews.logs s ++
          [{| AiFullstackViews.log_id :=
                AiFullstackViews.next_log_id (AiFullstackViews.logs s);
              AiFullstackViews.log_text := text;
              AiFullstackViews.log_prediction := result;
              AiFullstackViews.log_timestamp := now |}] |}).

(** [POST /predict]: [predict] behind [@auth_required]. *)
Definition api_predict (now : Z) (s : AiFullstackViews.site)
    (auth : option (string * string)) (text : option string)
    : result response * AiFullstackViews.site :=
  match guard_decision (AiFullstackViews.accounts s) auth with
  | Raise e => (Raise e, s)
  | Ok (Some rejection) => (Ok rejection, s)
  | Ok None => predict now s text
  end.
End Views.
End BasicAuthViews.

(** ** Sequences of registrations *)

Section RegistrationRuns.
Context `{!Bcrypt}.

(** The store after a run of [POST /api/register] calls, given as salt,
    username and password. *)
Definition register_all (db : database)
    (calls : list (string * string * string)) : database :=
  foldl (fun db '(salt, u, p) => (FullstackAiApp.register salt db u p).2)
    db calls.

(** The store after a run of [register_user] calls. *)
Definition register_user_all (db : database)
    (calls : list (string * string)) : database :=
  foldl (fun db '(u, p) => (AiFullstackApp.register_user db u p).2)
    db calls.
End RegistrationRuns.

(** ** JavaScript values in the components *)

From Stdlib Require Import DecimalString.

(** Truthiness of a JSON value or [undefined] ([None]). *)
Definition js_truthy (v : option jval) : bool :=
  match v with
  | None => false
  | Some (JStr EmptyString) => false
  | Some (JStr _) => true
  | Some (JInt z) => negb (z =? 0)
  end.

(** [String(v)], as [localStorage.setItem] applies it (integers below
    10^21 in absolute value print in decimal). *)
Definition js_string (v : option jval) : string :=
  match v with
  | None => "undefined"
  | Some (JStr s) => s
  | Some (JInt z) => NilZero.string_of_int (Z.to_int z)
  end.

(** [a || b]. *)
Definition js_or (a b : option jval) : option jval :=
  if js_truthy a then a else b.

(** [res.data.key] of an axios response; a body that is not a JSON object
    has no such property. *)
Definition data_field (data : option dict) (key : string) : option jval :=
  data ≫= fun d => d !! key.

(** [await axios.post(...)]: the promise resolves with the body for a
    status from 200 to 299 and rejects for any other status and for a
    network error. *)
Definition axios_post (r : ReactClient.fetched) : option (option dict) :=
  match r with
  | ReactClient.NetworkError => None
  | ReactClient.Response status data =>
      if (200 <=? status) && (status <? 300) then Some data else None
  end.

(** ** frontend/src of the bcrypt boilerplate *)

Module FullstackAiClient.
(** The token of [App], the output of [Dashboard], the browser's
    localStorage and the alerts shown so far. *)
Record page : Type := {
  token : option jval;
  output : option jval;
  localStorage : gmap string string;
  alerts : list string;
}.

(** The first render: [useState(localStorage.getItem('token'))]. *)
Definition mount (storage : gmap string string) : page :=
  {| token := JStr <$> storage !! "token";
     output := Some (JStr "");
     localStorage := storage;
     alerts := [] |}.

(** [token ? <Dashboard /> : <Login />]. *)
Definition shows_dashboard (st : page) : bool := js_truthy (token st).

(** [login] of Login.js once the request has settled. *)
Definition login (st : page) (r : ReactClient.fetched) : page :=
  match axios_post r with
  | Some data =>
      {| token := data_field data "token";
         output := output st;
         localStorage :=
           <["token" := js_string (data_field data "token")]>
             (localStorage st);
         alerts := alerts st |}
  | None =>
      {| token := token st;
         output := output st;
         localStorage := localStorage st;
         alerts := alerts st ++ ["Login failed"] |}
  end.

(** The headers [predict] of Dashboard.js sends. *)
Definition request_headers (st : page) : gmap string string :=
  bearer (default "null" (localStorage st !! "token")).

(** [predict] of Dashboard.js once the request has settled. *)
Definition predict (st : page) (r : ReactClient.fetched) : page :=
  match axios_post r with
  | Some data =>
      {| token := token st;
         output := data_field data "output";
         localStorage := localStorage st;
         alerts := alerts st |}
  | None =>
      {| token := token st;
         output := output st;
         localStorage := localStorage st;
         alerts := alerts st ++ ["Unauthorized"] |}
  end.
End FullstackAiClient.

(** ** frontend/src of the spam-detector app *)

Module AiFullstackClient.
(** The state of [App]. *)
Record app : Type := {
  text : string;
  result : option jval;
  token : string;
}.

(** The first render: [useState(localStorage.getItem("token") || "")]. *)
Definition mount (storage : gmap string string) : app :=
  {| text := "";
     result := Some (JStr "");
     token := default "" (storage !! "token") |}.

(** The headers [handlePredict] sends. *)
Definition request_headers (st : app) : gmap string string :=
  bearer (token st).

(** [handlePredict] once the request has settled; nothing catches a
    rejected promise. *)
Definition handlePredict (st : app) (r : ReactClient.fetched) : app :=
  match axios_post r with
  | Some data =>
      {| text := text st;
         result := data_field data "prediction";
         token := token st |}
  | None => st
  end.

(** [result === "" ? "N/A" : result === 1 ? "Spam" : "Ham"]. *)
Definition label (st : app) : string :=
  match result st with
  | Some (JStr EmptyString) => "N/A"
  | Some (JInt 1) => "Spam"
  | _ => "Ham"
  end.

(** [handleLogin] of Login.js once the request has settled: localStorage
    afterwards and, when it is called, the argument of [setToken]. *)
Definition handleLogin (storage : gmap string string)
    (r : ReactClient.fetched)
    : gmap string string * option (option jval) :=
  match axios_post r with
  | Some data =>
      (<["token" := js_string (data_field data "token")]> storage,
       Some (data_field data "token"))
  | None => (storage, None)
  end.

(** [handleRegister] of Register.js once the request has settled, on the
    message the component shows. *)
Definition handleRegister (message : option jval) (r : ReactClient.fetched)
    : option jval :=
  match axios_post r with
  | Some data => js_or (data_field data "message") (data_field data "error")
  | None => message
  end.
End AiFullstackClient.

(** ** src/App.js of the React client: runs of events *)

Module ReactSession.
(** The first render: [useState(localStorage.getItem(...))]. *)
Definition mount (storage : gmap string string) : ReactClient.client :=
  {| ReactClient.token := storage !! "token";
     ReactClient.username := storage !! "username";
     ReactClient.prediction := Some (JStr "");
     ReactClient.localStorage := storage |}.

(** What can happen to the component: a login reported by [<Login />], a
    click on Logout, a settled [handlePredict]. *)
Inductive event : Type :=
  | LoggedIn (tok user : string)
  | LoggedOut
  | Predicted (r : ReactClient.fetched).

Definition step (st : ReactClient.client) (e : event) : ReactClient.client :=
  match e with
  | LoggedIn tok user => ReactClient.handleLogin tok user st
  | LoggedOut => ReactClient.logout st
  | Predicted r => ReactClient.handlePredict st r
  end.

Definition run (st : ReactClient.client) (events : list event)
    : ReactClient.client :=
  foldl step st events.

(** The component state and localStorage hold the same session. *)
Definition in_sync (st : ReactClient.client) : bool :=
  bool_decide (ReactClient.token st
               = ReactClient.localStorage st !! "token") &&
  bool_decide (ReactClient.username st
               = ReactClient.localStorage st !! "username").
End ReactSession.

(** * Properties of the views and the clients *)

(** ** Reversal *)

Lemma rev_app_rev_app (s t u : string) :
  String.rev_app (String.rev_app s t) u = String.rev_app t (s +:+ u).
Proof.
  revert t. induction s as [|c s IH]; intros t; [done|].
  simpl. rewrite IH. simpl. by rewrite append_cons.
Qed.

Lemma rev_involutive (s : string) : String.rev (String.rev s) = s.
Proof.
  unfold String.rev. rewrite rev_app_rev_app. simpl. apply append_nil_r.
Qed.

(** ** The protected view of the bcrypt boilerplate *)

Section FullstackAiViewsFacts.
Context `{!Codec}.

(** The guard calls the view exactly when it decides for a user. *)
Lemma token_required_decision (f : jval → result response) (now : Z)
    (headers : gmap string string) :
  FullstackAiApp.token_required f now headers =
    match FullstackAiViews.guard_decision now headers with
    | inl rejection => Ok rejection
    | inr current_user => f current_user
    end.
Proof.
  unfold FullstackAiApp.token_required, FullstackAiViews.guard_decision.
  destruct (negb (truthy (headers !! "Authorization"))); [done|].
  by destruct (FullstackAiApp.current_user_of now
                 (default "" (headers !! "Authorization"))).
Qed.

Lemma guard_decision_status (now : Z) (headers : gmap string string)
    (rejection : response) :
  FullstackAiViews.guard_decision now headers = inl rejection →
  status rejection = 403.
Proof.
  unfold FullstackAiViews.guard_decision.
  destruct (negb (truthy (headers !! "Authorization"))).
  - by intros [= <-].
  - destruct (FullstackAiApp.current_user_of now
                (default "" (headers !! "Authorization"))); [done|].
    by intros [= <-].
Qed.

Lemma guard_decision_issued (now now0 : Z) (user : user_row) :
  FullstackAiViews.guard_decision now
    (bearer (jwt_encode (FullstackAiApp.login_claims now0 user)
               FullstackAiApp.SECRET_KEY))
  = if now <? now0 + 30 * 60 then inr (JStr (row_username user))
    else inl FullstackAiApp.token_invalid.
Proof.
  pose proof (token_required_decision (fun u => Ok {| body := {[ "u" := u ]};
                status := 0 |}) now
                (bearer (jwt_encode (FullstackAiApp.login_claims now0 user)
                           FullstackAiApp.SECRET_KEY))) as Hdec.
  rewrite guard_issued in Hdec.
  destruct (FullstackAiViews.guard_decision now _) as [rejection|u] eqn:Hg,
    (now <? now0 + 30 * 60) eqn:Hlt.
  - apply Ok_inj in Hdec. apply (f_equal status) in Hdec.
    rewrite (guard_decision_status _ _ _ Hg) in Hdec. discriminate.
  - apply Ok_inj in Hdec. by rewrite Hdec.
  - apply Ok_inj in Hdec.
    apply (f_equal (fun r => body r !! "u")) in Hdec. simpl in Hdec.
    rewrite !lookup_singleton_eq in Hdec. congruence.
  - apply Ok_inj in Hdec. apply (f_equal status) in Hdec. discriminate.
Qed.
End FullstackAiViewsFacts.

(** X1.  [POST /api/predict] of the bcrypt boilerplate is the view behind
    the guard, it never touches the users table, and it writes to the
    logs exactly when it answers 200: then the guard decided for a user,
    the body had an input, the store was reachable, the answer carries the
    reversed input and one row with that user, the input, the output and
    the clock reading was appended.  With any other answer (403 of the
    guard, or a KeyError or OperationalError leaving the view) the
    database is as before. *)
Theorem predict_logs_on_success_only `{!Codec} (now : Z)
    (s : FullstackAiViews.site) (headers : gmap string string)
    (input : option string) :
  let out := FullstackAiViews.api_predict now s headers input in
  out.1 = FullstackAiApp.token_required
            (fun u => (FullstackAiViews.predict now s input u).1)
            now headers ∧
  FullstackAiViews.accounts out.2 = FullstackAiViews.accounts s ∧
  ((∃ current_user text,
      FullstackAiViews.guard_decision now headers = inr current_user ∧
      input = Some text ∧
      online (FullstackAiViews.accounts s) = true ∧
      out.1 = Ok (FullstackAiViews.output_response (String.rev text)) ∧
      http_status out.1 = 200 ∧
      FullstackAiViews.logs out.2 = FullstackAiViews.logs s ++
        [{| FullstackAiViews.log_id :=
              FullstackAiViews.next_log_id (FullstackAiViews.logs s);
            FullstackAiViews.log_username := current_user;
            FullstackAiViews.log_input := text;
            FullstackAiViews.log_output := String.rev text;
            FullstackAiViews.log_timestamp := now |}]) ∨
   (http_status out.1 ≠ 200 ∧ out.2 = s)).
Proof.
  cbv zeta. split.
  { rewrite token_required_decision. unfold FullstackAiViews.api_predict.
    by destruct (FullstackAiViews.guard_decision now headers). }
  unfold FullstackAiViews.api_predict.
  destruct (FullstackAiViews.guard_decision now headers)
    as [rejection|current_user] eqn:Hg.
  - split; [done|]. right. split; [|done]. simpl.
    by rewrite (guard_decision_status _ _ _ Hg).
  - unfold FullstackAiViews.predict.
    destruct input as [text|]; [|split; [done|right; by split]].
    destruct (online (FullstackAiViews.accounts s)) eqn:Hon; simpl;
      [|split; [done|right; by split]].
    split; [done|]. left. by exists current_user, text.
Qed.

(** X2.  A prediction made with a token that the bcrypt boilerplate's login
    issued to a user is logged under that user: before the token's expiry
    the call answers with the reversed text and appends one row carrying
    the username the token was issued for; from the expiry on it is
    answered "Token is invalid" and nothing is logged. *)
Theorem prediction_attributed_to_token_owner `{!Codec, !Bcrypt} (now0 : Z)
    (db : database) (u p token : string) (s : FullstackAiViews.site)
    (text : string) (now : Z) :
  FullstackAiApp.login now0 db u (Some (JStr p))
  = Ok (FullstackAiApp.token_response token) →
  online (FullstackAiViews.accounts s) = true →
  FullstackAiViews.api_predict now s (bearer token) (Some text)
  = if now <? now0 + 30 * 60 then
      (Ok (FullstackAiViews.output_response (String.rev text)),
       {| FullstackAiViews.accounts := FullstackAiViews.accounts s;
          FullstackAiViews.logs := FullstackAiViews.logs s ++
            [{| FullstackAiViews.log_id :=
                  FullstackAiViews.next_log_id (FullstackAiViews.logs s);
                FullstackAiViews.log_username := JStr u;
                FullstackAiViews.log_input := text;
                FullstackAiViews.log_output := String.rev text;
                FullstackAiViews.log_timestamp := now |}] |})
    else (Ok FullstackAiApp.token_invalid, s).
Proof.
  intros (user & ? & _ & _ & Hfind & _ & ->)%login_inv Hon.
  apply find_has_username in Hfind as [<- _].
  unfold FullstackAiViews.api_predict. rewrite guard_decision_issued.
  destruct (now <? now0 + 30 * 60); [|done].
  unfold FullstackAiViews.predict. by rewrite Hon.
Qed.

Lemma prediction_attributed_to_token_owner_witness :
  (@FullstackAiViews.api_predict Reference.codec 1200
     {| FullstackAiViews.accounts := Reference.alice_store;
        FullstackAiViews.logs := [] |}
     (bearer (Reference.login_token 1000)) (Some "abc")).2
  = {| FullstackAiViews.accounts := Reference.alice_store;
       FullstackAiViews.logs :=
         [{| FullstackAiViews.log_id := 1;
             FullstackAiViews.log_username := JStr "alice";
             FullstackAiViews.log_input := "abc";
             FullstackAiViews.log_output := "cba";
             FullstackAiViews.log_timestamp := 1200 |}] |}.
Proof.
  assert (@FullstackAiApp.login Reference.codec Reference.bcrypt 1000
            Reference.alice_store "alice" (Some (JStr "secret123"))
          = Ok (FullstackAiApp.token_response (Reference.login_token 1000)))
    as Hlogin by reflexivity.
  rewrite (@prediction_attributed_to_token_owner Reference.codec
             Reference.bcrypt 1000 Reference.alice_store "alice"
             "secret123" (Reference.login_token 1000)
             {| FullstackAiViews.accounts := Reference.alice_store;
                FullstackAiViews.logs := [] |}
             "abc" 1200 Hlogin eq_refl).
  reflexivity.
Defined.

(** X3.  The prediction of the bcrypt boilerplate undoes itself: when a
    call with some text has answered with an output, a later call that
    sends this output as its input, on any reachable store and for any
    user, answers with the text of the first call. *)
Theorem predict_twice_restores_input (now now' : Z)
    (s s1 s' : FullstackAiViews.site) (text output : string)
    (user user' : jval) :
  FullstackAiViews.predict now s (Some text) user
  = (Ok (FullstackAiViews.output_response output), s1) →
  online (FullstackAiViews.accounts s') = true →
  (FullstackAiViews.predict now' s' (Some output) user').1
  = Ok (FullstackAiViews.output_response text).
Proof.
  unfold FullstackAiViews.predict at 1.
  destruct (negb (online (FullstackAiViews.accounts s))); [done|].
  intros Heq Hon. apply (f_equal fst) in Heq. simpl in Heq.
  apply Ok_inj in Heq.
  apply (f_equal (fun r => body r !! "output")) in Heq.
  unfold FullstackAiViews.output_response in Heq. simpl in Heq.
  rewrite !lookup_singleton_eq in Heq.
  assert (output = String.rev text) as -> by congruence.
  unfold FullstackAiViews.predict. rewrite Hon. simpl.
  by rewrite rev_involutive.
Qed.

Lemma predict_twice_restores_input_witness :
  (FullstackAiViews.predict 2
     {| FullstackAiViews.accounts := Reference.alice_store;
        FullstackAiViews.logs := [] |}
     (Some "cba") (JStr "bob")).1
  = Ok (FullstackAiViews.output_response "abc").
Proof.
  eapply (predict_twice_restores_input 1 2
            {| FullstackAiViews.accounts := Reference.alice_store;
               FullstackAiViews.logs := [] |} _
            {| FullstackAiViews.accounts := Reference.alice_store;
               FullstackAiViews.logs := [] |}
            "abc" "cba" (JStr "alice") (JStr "bob"));
    reflexivity.
Defined.

(** ** The views of the spam-detector app *)

Section AiFullstackViewsFacts.
Context `{!Codec}.
Variable environ : gmap string string.

(** The guard calls the view exactly when it decides for a user. *)
Lemma spam_token_required_decision (f : jval → result response) (now : Z)
    (headers : gmap string string) :
  AiFullstackApp.token_required environ f now headers =
    match AiFullstackViews.guard_decision environ now headers with
    | Raise e => Raise e
    | Ok (inl rejection) => Ok rejection
    | Ok (inr current_user) => f current_user
    end.
Proof.
  unfold AiFullstackApp.token_required, AiFullstackViews.guard_decision.
  destruct (headers !! "Authorization") as [value|]; [|done].
  destruct (split value !! 1%nat) as [part|]; [|done].
  destruct part as [|c t]; [done|]. simpl.
  destruct (jwt_decode (String c t) _ _ _) as [data|e]; simpl; [|done].
  by destruct (getitem data "user").
Qed.

Lemma spam_guard_decision_status (now : Z) (headers : gmap string string)
    (rejection : response) :
  AiFullstackViews.guard_decision environ now headers = Ok (inl rejection) →
  status rejection = 401 ∨ status rejection = 403.
Proof.
  unfold AiFullstackViews.guard_decision.
  destruct (headers !! "Authorization") as [value|].
  - destruct (split value !! 1%nat) as [part|]; [|done].
    destruct part as [|c t]; simpl.
    + intros [= <-]. by left.
    + destruct (jwt_decode (String c t) _ _ _) as [data|e]; simpl.
      * destruct (getitem data "user"); [done|]. intros [= <-]. by right.
      * intros [= <-]. by right.
  - intros [= <-]. by left.
Qed.
End AiFullstackViewsFacts.

(** X4.  [POST /predict] of the spam-detector app is the view behind the
    guard, it never touches the users table, and it writes to the logs
    exactly when it answers 200: then the guard decided for a user, the
    store was reachable, and one row with the text (the empty text when
    the body has none), the classifier's verdict on it and the clock
    reading was appended, the answer carrying the same verdict.  With any
    other answer (401 or 403 of the guard, or an IndexError or
    OperationalError leaving the view) the database is as before. *)
Theorem spam_predict_logs_on_success_only `{!Codec}
    (environ : gmap string string) (model : string → Z) (now : Z)
    (s : AiFullstackViews.site) (headers : gmap string string)
    (text : option string) :
  let out := AiFullstackViews.api_predict environ model now s headers text in
  out.1 = AiFullstackApp.token_required environ
            (fun u => (AiFullstackViews.predict model now s text u).1)
            now headers ∧
  AiFullstackViews.accounts out.2 = AiFullstackViews.accounts s ∧
  ((∃ current_user,
      AiFullstackViews.guard_decision environ now headers
      = Ok (inr current_user) ∧
      online (AiFullstackViews.accounts s) = true ∧
      out.1 = Ok (AiFullstackViews.prediction_response
                    (model (default "" text))) ∧
      http_status out.1 = 200 ∧
      AiFullstackViews.logs out.2 = AiFullstackViews.logs s ++
        [{| AiFullstackViews.log_id :=
              AiFullstackViews.next_log_id (AiFullstackViews.logs s);
            AiFullstackViews.log_text := default "" text;
            AiFullstackViews.log_prediction := model (default "" text);
            AiFullstackViews.log_timestamp := now |}]) ∨
   (http_status out.1 ≠ 200 ∧ out.2 = s)).
Proof.
  cbv zeta. split.
  { rewrite spam_token_required_decision.
    unfold AiFullstackViews.api_predict.
    by destruct (AiFullstackViews.guard_decision environ now headers)
      as [[?|?]|?]. }
  unfold AiFullstackViews.api_predict.
  destruct (AiFullstackViews.guard_decision environ now headers)
    as [[rejection|current_user]|e] eqn:Hg.
  - split; [done|]. right. split; [|done]. simpl.
    destruct (spam_guard_decision_status _ _ _ _ Hg) as [-> | ->]; done.
  - unfold AiFullstackViews.predict.
    destruct (online (AiFullstackViews.accounts s)) eqn:Hon; simpl;
      [|split; [done|right; by split]].
    split; [done|]. left. by exists current_user.
  - split; [done|]. right. by split.
Qed.

(** ** Tokens of one backend at the guard of another *)

Section CrossTokens.
Context `{!Codec}.

(** Decoding a token under any key: the claims when the two keys give the
    same MAC on the signed text, an invalid signature otherwise. *)
Lemma jwt_decode_encode_other_key (payload : dict) (key key' : string)
    (now : Z) :
  jwt_decode (jwt_encode payload key') key ["HS256"] now
  = (validate_exp payload now ≫= fun _ => Ok payload) ∨
  jwt_decode (jwt_encode payload key') key ["HS256"] now
  = Raise InvalidSignatureError.
Proof.
  unfold jwt_decode, jwt_encode. cbv zeta. rewrite !append_dot.
  rewrite (rsplit1_app "." _ _ (b64encode_not_dot _)). simpl.
  rewrite (split1_app "." _ _ (b64encode_not_dot _)). simpl.
  rewrite !b64decode_encode. simpl.
  rewrite !json_loads_dumps. simpl.
  rewrite jose_header_alg. simpl.
  case_bool_decide; [by left|by right].
Qed.
End CrossTokens.

(** X5.  The tokens of the two JWT backends are not interchangeable,
    whatever the secrets and the clock: the guard of the bcrypt boilerplate
    answers "Token is invalid" to every token of the spam detector's
    [create_token], and the guard of the spam detector answers "Invalid
    token" to every token of the bcrypt boilerplate's login, because each
    guard reads a claim the other issuer does not write. *)
Theorem tokens_not_interchangeable `{!Codec} (environ : gmap string string)
    (f : jval → result response) (now now0 : Z) (user : user_row)
    (u : string) :
  FullstackAiApp.token_required f now
    (bearer (AiFullstackApp.create_token environ u))
  = Ok FullstackAiApp.token_invalid ∧
  AiFullstackApp.token_required environ f now
    (bearer (jwt_encode (FullstackAiApp.login_claims now0 user)
               FullstackAiApp.SECRET_KEY))
  = Ok AiFullstackApp.invalid_token.
Proof.
  split.
  - unfold AiFullstackApp.create_token.
    rewrite guard_bearer
      by (apply jwt_encode_nonempty || apply jwt_encode_not_space).
    destruct (jwt_decode_encode_other_key {[ "user" := JStr u ]}
                FullstackAiApp.SECRET_KEY
                (AiFullstackApp.SECRET_KEY environ) now) as [-> | ->];
      [|done].
    unfold validate_exp. rewrite lookup_singleton_ne by done. simpl.
    unfold getitem. by rewrite lookup_singleton_ne.
  - rewrite spam_guard_bearer
      by (apply jwt_encode_nonempty || apply jwt_encode_not_space).
    destruct (jwt_decode_encode_other_key
                (FullstackAiApp.login_claims now0 user)
                (AiFullstackApp.SECRET_KEY environ)
                FullstackAiApp.SECRET_KEY now) as [-> | ->]; [|done].
    unfold validate_exp. rewrite login_claims_exp.
    destruct (now0 + 30 * 60 <=? now); simpl; [done|].
    unfold getitem, FullstackAiApp.login_claims.
    rewrite lookup_insert_ne by done. by rewrite lookup_singleton_ne.
Qed.

(** ** Runs of registrations *)

Lemma insert_user_grows (db db' : database) (u p : string) :
  insert_user db u p = Ok db' →
  online db' = online db ∧ users db `prefix_of` users db'.
Proof.
  unfold insert_user.
  destruct (online db) eqn:Hon; simpl; [|done].
  destruct (existsb (has_username u) (users db)); [done|].
  intros [= <-]. simpl. split; [done|]. by apply prefix_app_r.
Qed.

Section RegistrationRunsFacts.
Context `{!Bcrypt}.

Definition kept (db db' : database) : Prop :=
  users db `prefix_of` users db' ∧
  (unique_usernames db = true → unique_usernames db' = true).

Lemma kept_refl (db : database) : kept db db.
Proof. by split. Qed.

Lemma kept_trans (db1 db2 db3 : database) :
  kept db1 db2 → kept db2 db3 → kept db1 db3.
Proof.
  intros (Hp1 & Hu1) (Hp2 & Hu2). split; [by etrans|]. auto.
Qed.

Lemma kept_left_open (e : exn) (db : database) : kept db (left_open e db).
Proof.
  unfold kept, unique_usernames. by rewrite users_left_open.
Qed.

Lemma insert_user_kept (db : database) (u p : string) :
  kept db (match insert_user db u p with
           | Ok db' => db'
           | Raise e => left_open e db
           end).
Proof.
  destruct (insert_user db u p) as [db'|e] eqn:Hins;
    [|apply kept_left_open].
  destruct (insert_user_grows _ _ _ _ Hins) as [Ho Hp].
  split; [done|]. intros Hu.
  by apply (insert_user_unique db db' u p).
Qed.

Lemma register_kept (salt : string) (db : database) (u p : string) :
  kept db (FullstackAiApp.register salt db u p).2.
Proof.
  pose proof (insert_user_kept db u (hashpw p salt)) as Hk.
  unfold FullstackAiApp.register.
  by destruct (insert_user db u (hashpw p salt)).
Qed.

Lemma register_user_kept (db : database) (u p : string) :
  kept db (AiFullstackApp.register_user db u p).2.
Proof.
  pose proof (insert_user_kept db u p) as Hk.
  unfold AiFullstackApp.register_user.
  by destruct (insert_user db u p) as [?|[]].
Qed.

Lemma register_all_kept (db : database)
    (calls : list (string * string * string)) :
  kept db (register_all db calls).
Proof.
  revert db. induction calls as [|[[salt u] p] calls IH]; intros db.
  - apply kept_refl.
  - simpl. eapply kept_trans; [apply (register_kept salt db u p)|apply IH].
Qed.

Lemma register_user_all_kept (db : database)
    (calls : list (string * string)) :
  kept db (register_user_all db calls).
Proof.
  revert db. induction calls as [|[u p] calls IH]; intros db.
  - apply kept_refl.
  - simpl. eapply kept_trans; [apply (register_user_kept db u p)|apply IH].
Qed.
End RegistrationRunsFacts.

(** X6.  Registration only ever appends: after any run of registration
    calls, of the bcrypt boilerplate or of the spam detector, successful or
    refused, every row that was in the users table is still there
    unchanged and in place, and when the usernames were unique before the
    run they are unique after it. *)
Theorem registrations_append_only `{!Bcrypt} (db : database)
    (calls : list (string * string * string))
    (user_calls : list (string * string)) :
  users db `prefix_of` users (register_all db calls) ∧
  users db `prefix_of` users (register_user_all db user_calls) ∧
  (unique_usernames db = true →
   unique_usernames (register_all db calls) = true ∧
   unique_usernames (register_user_all db user_calls) = true).
Proof.
  destruct (register_all_kept db calls) as (Hp & Hu).
  destruct (register_user_all_kept db user_calls) as (Hp' & Hu').
  split; [done|]. split; [done|]. intros Huniq. split; auto.
Qed.

Lemma registrations_append_only_witness :
  unique_usernames
    (@register_all Reference.bcrypt Reference.alice_store
       [("s1", "bob", "pw"); ("s2", "alice", "other"); ("s3", "bob", "x")])
  = true ∧
  unique_usernames
    (register_user_all Reference.alice_store
       [("bob", "pw"); ("alice", "other"); ("bob", "x")])
  = true.
Proof.
  apply (proj2 (proj2 (@registrations_append_only Reference.bcrypt
           Reference.alice_store
           [("s1", "bob", "pw"); ("s2", "alice", "other"); ("s3", "bob", "x")]
           [("bob", "pw"); ("alice", "other"); ("bob", "x")]))).
  reflexivity.
Defined.

(** X7.  Register, log in, call: after a first registration of a username
    on a reachable store, a login with the same password answers with a
    token, and the guard passes a call with that token to the view as this
    user.  In the bcrypt boilerplate this needs [bcrypt.checkpw] to accept
    a password against its own [bcrypt.hashpw], and the guard passes the
    call until 1800 seconds after the login; in the spam detector the guard
    passes it at every clock reading. *)
Theorem register_login_call `{!Codec, !Bcrypt}
    (environ : gmap string string) (f : jval → result response)
    (salt : string) (db : database) (u p : string) (now0 : Z) :
  online db = true →
  existsb (has_username u) (users db) = false →
  (checkpw p (hashpw p salt) = Ok true →
   ∃ token,
     FullstackAiApp.login now0 (FullstackAiApp.register salt db u p).2 u
       (Some (JStr p))
     = Ok (FullstackAiApp.token_response token) ∧
     ∀ now, FullstackAiApp.token_required f now (bearer token)
       = if now <? now0 + 30 * 60 then f (JStr u)
         else Ok FullstackAiApp.token_invalid) ∧
  (∃ token,
     AiFullstackApp.login environ now0
       (AiFullstackApp.register_user db u p).2 u p
     = Ok (AiFullstackApp.token_response token) ∧
     ∀ now, AiFullstackApp.token_required environ f now (bearer token)
       = f (JStr u)).
Proof.
  intros Hon Hex. split.
  - intros Hpw.
    destruct (register_fresh salt db u p Hon Hex)
      as (db' & -> & Hon' & Hex' & Hstored).
    simpl snd. apply fmap_Some in Hstored as (user & Hfind & Hhash).
    rewrite (login_known now0 db' u p user (online_readable _ Hon') Hfind),
      <- Hhash, Hpw.
    eexists. split; [reflexivity|]. intros now.
    rewrite guard_issued.
    by apply find_has_username in Hfind as [-> _].
  - rewrite (register_user_store db u p Hon Hex).
    pose proof (existsb_find_none _ _ Hex) as Hnone.
    exists (AiFullstackApp.create_token environ u). split.
    + unfold AiFullstackApp.login, select_by_credentials, readable. simpl.
      rewrite (find_app_none _ _ _
                 (find_credentials_unknown u p _ Hnone)).
      simpl. rewrite has_credentials_own.
      by rewrite bool_decide_eq_true_2.
    + intros now. apply spam_guard_issued.
Qed.

Lemma register_login_call_witness :
  (∃ token,
     @FullstackAiApp.login Reference.codec Reference.bcrypt 1000
       (@FullstackAiApp.register Reference.bcrypt "salt"
          Reference.empty_store "alice" "secret123").2 "alice"
       (Some (JStr "secret123"))
     = Ok (FullstackAiApp.token_response token) ∧
     ∀ now, Reference.guard now (bearer token)
       = if now <? 1000 + 30 * 60 then Reference.whoami (JStr "alice")
         else Ok FullstackAiApp.token_invalid) ∧
  (∃ token,
     @AiFullstackApp.login Reference.codec ∅ 1000
       (AiFullstackApp.register_user Reference.empty_store
          "alice" "secret123").2 "alice" "secret123"
     = Ok (AiFullstackApp.token_response token) ∧
     ∀ now, Reference.spam_guard now (bearer token)
       = Reference.whoami (JStr "alice")).
Proof.
  destruct (@register_login_call Reference.codec Reference.bcrypt ∅
              Reference.whoami "salt" Reference.empty_store "alice"
              "secret123" 1000 eq_refl eq_refl) as [Hbcrypt Hspam].
  split; [apply Hbcrypt; reflexivity|exact Hspam].
Defined.

(** ** The basic-auth starter *)

(** The guard calls the view exactly when it finds the credentials. *)
Lemma auth_required_decision (f : result response) (db : database)
    (auth : option (string * string)) :
  BasicAuthApp.auth_required f db auth =
    match BasicAuthViews.guard_decision db auth with
    | Raise e => Raise e
    | Ok (Some rejection) => Ok rejection
    | Ok None => f
    end.
Proof.
  unfold BasicAuthApp.auth_required, BasicAuthViews.guard_decision.
  destruct auth as [[username password]|]; [|done].
  destruct (select_by_credentials db username password) as [[user|]|e];
    done.
Qed.

Lemma insert_or_ignore_present (db : database) (u p : string) :
  online db = true →
  existsb (has_username u) (users db) = true →
  BasicAuthViews.insert_or_ignore db u p = Ok db.
Proof. unfold BasicAuthViews.insert_or_ignore. by intros -> ->. Qed.

(** X8.  The start-up seeding of the basic-auth starter on a reachable
    store.  When the users table has a row for admin, the seeding leaves
    the store exactly as it is; when it has none, the seeding appends
    exactly one row, admin with the password admin123 under the next row
    id, and changes nothing else.  So it yields a store with an admin row,
    every existing row is still there unchanged and in place, and running
    it again changes nothing.  When there was no admin row, the
    credentials that the shipped frontend sends pass the guard afterwards;
    when there was an admin row with another password (usernames being
    unique), the shipped frontend is answered 403 "Invalid credentials". *)
Theorem startup_seeding (f : result response) (db : database) :
  online db = true →
  ∃ db',
    BasicAuthViews.startup db = Ok db' ∧
    BasicAuthViews.startup db' = Ok db' ∧
    db' = (if existsb (has_username "admin") (users db) then db
           else {| online := online db;
                   locked := locked db;
                   users := users db ++
                     [{| row_id := next_rowid (users db);
                         row_username := "admin";
                         row_password := "admin123" |}] |}) ∧
    users db `prefix_of` users db' ∧
    existsb (has_username "admin") (users db') = true ∧
    (find (has_username "admin") (users db) = None →
     BasicAuthApp.auth_required f db' BasicAuthViews.shipped_credentials
     = f) ∧
    (∀ row, find (has_username "admin") (users db) = Some row →
     row_password row ≠ "admin123" →
     unique_usernames db = true →
     db' = db ∧
     BasicAuthApp.auth_required f db' BasicAuthViews.shipped_credentials
     = Ok BasicAuthApp.invalid_credentials).
Proof.
  intros Hon. unfold BasicAuthViews.startup.
  destruct (existsb (has_username "admin") (users db)) eqn:Hex.
  - exists db. rewrite (insert_or_ignore_present db _ _ Hon Hex).
    split; [done|]. split; [done|]. split; [done|]. split; [done|].
    split; [done|]. split.
    + intros Hnone. apply find_none_existsb in Hnone. congruence.
    + intros row Hfind Hpw Huniq%bool_decide_eq_true. split; [done|].
      unfold BasicAuthApp.auth_required, BasicAuthViews.shipped_credentials,
        select_by_credentials.
      rewrite (online_readable db Hon). simpl.
      by rewrite (find_credentials_wrong "admin" "admin123" _ row
                    Huniq Hfind Hpw).
  - destruct (insert_user_fresh db "admin" "admin123" Hon Hex)
      as (db' & Hins & Hon' & Hex' & Hfind').
    exists db'. unfold BasicAuthViews.insert_or_ignore at 1.
    rewrite Hon, Hex. simpl. split; [done|].
    split; [by apply insert_or_ignore_present|].
    assert (db' = {| online := online db;
                     locked := locked db;
                     users := users db ++
                       [{| row_id := next_rowid (users db);
                           row_username := "admin";
                           row_password := "admin123" |}] |}) as Hshape.
    { unfold insert_user in Hins. rewrite Hon, Hex in Hins. simpl in Hins.
      apply Ok_inj in Hins. by rewrite Hon. }
    split; [by rewrite Hshape, Hon|].
    split; [by apply (insert_user_grows db db' "admin" "admin123")|].
    split; [done|]. split.
    + intros _.
      unfold BasicAuthApp.auth_required, BasicAuthViews.shipped_credentials,
        select_by_credentials.
      rewrite (online_readable db' Hon'). simpl.
      rewrite Hshape. simpl.
      pose proof (existsb_find_none _ _ Hex) as Hnone.
      by rewrite (find_app_none _ _ _
                    (find_credentials_unknown "admin" "admin123" _ Hnone)).
    + intros row Hfind. apply find_some_existsb in Hfind. congruence.
Qed.

Lemma startup_seeding_witness :
  ∃ db',
    BasicAuthViews.startup Reference.empty_store = Ok db' ∧
    BasicAuthViews.startup db' = Ok db' ∧
    db' = {| online := true;
             locked := false;
             users := [{| row_id := 1; row_username := "admin";
                          row_password := "admin123" |}] |} ∧
    users Reference.empty_store `prefix_of` users db' ∧
    existsb (has_username "admin") (users db') = true ∧
    BasicAuthApp.auth_required (Reference.whoami (JStr "admin")) db'
      BasicAuthViews.shipped_credentials
    = Reference.whoami (JStr "admin").
Proof.
  destruct (startup_seeding (Reference.whoami (JStr "admin"))
              Reference.empty_store eq_refl)
    as (db' & H1 & H2 & Hshape & H3 & H4 & H5 & _).
  exists db'. repeat split; try done. by apply H5.
Defined.

(** X9.  [POST /predict] of the basic-auth starter is the view behind the
    guard.  A call without credentials is answered 401 "Auth required"
    without the store being consulted, reachable or not.  The call never
    touches the users table and writes to the logs exactly when it answers
    200: then the credentials matched a row, and one row with the text
    (the empty text when the body has none), the classifier's verdict and
    the clock reading was appended.  With any other answer the database is
    as before. *)
Theorem basic_predict_logs_on_success_only (model : string → Z) (now : Z)
    (s : AiFullstackViews.site) (auth : option (string * string))
    (text : option string) :
  let out := BasicAuthViews.api_predict model now s auth text in
  out.1 = BasicAuthApp.auth_required
            (BasicAuthViews.predict model now s text).1
            (AiFullstackViews.accounts s) auth ∧
  (auth = None →
   out = (Ok BasicAuthApp.auth_required_response, s)) ∧
  AiFullstackViews.accounts out.2 = AiFullstackViews.accounts s ∧
  ((∃ username password row,
      auth = Some (username, password) ∧
      find (has_credentials username password)
        (users (AiFullstackViews.accounts s)) = Some row ∧
      online (AiFullstackViews.accounts s) = true ∧
      out.1 = Ok (AiFullstackViews.prediction_response
                    (model (default "" text))) ∧
      http_status out.1 = 200 ∧
      AiFullstackViews.logs out.2 = AiFullstackViews.logs s ++
        [{| AiFullstackViews.log_id :=
              AiFullstackViews.next_log_id (AiFullstackViews.logs s);
            AiFullstackViews.log_text := default "" text;
            AiFullstackViews.log_prediction := model (default "" text);
            AiFullstackViews.log_timestamp := now |}]) ∨
   (http_status out.1 ≠ 200 ∧ out.2 = s)).
Proof.
  cbv zeta. split.
  { rewrite auth_required_decision. unfold BasicAuthViews.api_predict.
    by destruct (BasicAuthViews.guard_decision _ auth) as [[?|]|?]. }
  split; [by intros ->|].
  unfold BasicAuthViews.api_predict, BasicAuthViews.guard_decision.
  destruct auth as [[username password]|];
    [|split; [done|right; by split]].
  unfold select_by_credentials.
  destruct (readable (AiFullstackViews.accounts s)) eqn:Hread; simpl;
    [|split; [done|right; by split]].
  destruct (find (has_credentials username password) _) as [row|] eqn:Hf;
    simpl; [|split; [done|right; by split]].
  unfold BasicAuthViews.predict.
  destruct (online (AiFullstackViews.accounts s)) eqn:Hon; simpl;
    [|split; [done|right; by split]].
  split; [done|]. left. by exists username, password, row.
Qed.

(** ** The React client: runs of events *)

Lemma in_sync_mount (storage : gmap string string) :
  ReactSession.in_sync (ReactSession.mount storage) = true.
Proof.
  unfold ReactSession.in_sync, ReactSession.mount. simpl.
  by rewrite !bool_decide_eq_true_2.
Qed.

Lemma in_sync_logout (st : ReactClient.client) :
  ReactSession.in_sync (ReactClient.logout st) = true.
Proof.
  unfold ReactSession.in_sync, ReactClient.logout. simpl.
  rewrite lookup_delete_ne by done. rewrite !lookup_delete_eq.
  by rewrite !bool_decide_eq_true_2.
Qed.

Lemma in_sync_step (st : ReactClient.client) (e : ReactSession.event) :
  ReactSession.in_sync st = true →
  ReactSession.in_sync (ReactSession.step st e) = true.
Proof.
  intros Hsync. destruct e as [tok user| |r]; simpl.
  - unfold ReactSession.in_sync, ReactClient.handleLogin. simpl.
    rewrite lookup_insert_ne by done. rewrite !lookup_insert_eq.
    by rewrite !bool_decide_eq_true_2.
  - apply in_sync_logout.
  - unfold ReactClient.handlePredict.
    destruct r as [|status data]; [done|].
    case_bool_decide; [apply in_sync_logout|].
    by destruct data.
Qed.

(** X10.  In the React client the component state and localStorage never
    disagree about the session: from the first render on, after any run of
    logins, logouts and settled protected calls, whatever the replies, the
    token and the username in the state are those under the keys [token]
    and [username] of localStorage. *)
Theorem session_state_matches_storage (storage : gmap string string)
    (events : list ReactSession.event) :
  ReactSession.in_sync
    (ReactSession.run (ReactSession.mount storage) events) = true.
Proof.
  unfold ReactSession.run.
  generalize (in_sync_mount storage).
  generalize (ReactSession.mount storage) as st.
  induction events as [|e events IH]; intros st Hsync; [done|].
  simpl. apply IH. by apply in_sync_step.
Qed.

(** X11.  Login and logout of the React client on localStorage: a logout
    after a login leaves the same state as a logout without that login; a
    second login replaces the first completely; a second logout changes
    nothing; and neither touches a key other than [token] and
    [username]. *)
Theorem login_logout_storage (st : ReactClient.client)
    (tok user tok' user' key : string) :
  ReactClient.logout (ReactClient.handleLogin tok user st)
  = ReactClient.logout st ∧
  ReactClient.handleLogin tok' user' (ReactClient.handleLogin tok user st)
  = ReactClient.handleLogin tok' user' st ∧
  ReactClient.logout (ReactClient.logout st) = ReactClient.logout st ∧
  (key ≠ "token" → key ≠ "username" →
   ReactClient.localStorage (ReactClient.handleLogin tok user st) !! key
   = ReactClient.localStorage st !! key ∧
   ReactClient.localStorage (ReactClient.logout st) !! key
   = ReactClient.localStorage st !! key).
Proof.
  unfold ReactClient.logout, ReactClient.handleLogin. simpl.
  split; [|split; [|split]].
  - f_equal. apply map_eq. intros k.
    destruct (decide (k = "username")) as [->|Hu].
    { by rewrite !lookup_delete_eq. }
    rewrite !(lookup_delete_ne _ "username") by done.
    destruct (decide (k = "token")) as [->|Ht].
    { by rewrite !lookup_delete_eq. }
    rewrite !(lookup_delete_ne _ "token") by done.
    by rewrite !lookup_insert_ne.
  - f_equal. apply map_eq. intros k.
    destruct (decide (k = "username")) as [->|Hu].
    { by rewrite !lookup_insert_eq. }
    rewrite !(lookup_insert_ne _ "username") by done.
    destruct (decide (k = "token")) as [->|Ht].
    { by rewrite !lookup_insert_eq. }
    by rewrite !lookup_insert_ne.
  - f_equal. apply map_eq. intros k.
    destruct (decide (k = "username")) as [->|Hu].
    { by rewrite !lookup_delete_eq. }
    rewrite !(lookup_delete_ne _ "username") by done.
    destruct (decide (k = "token")) as [->|Ht].
    { by rewrite !lookup_delete_eq. }
    by rewrite !lookup_delete_ne.
  - intros Ht Hu. split.
    + by rewrite !lookup_insert_ne.
    + by rewrite !lookup_delete_ne.
Qed.

Lemma login_logout_storage_witness :
  ReactClient.localStorage
    (ReactClient.handleLogin "t" "alice"
       (ReactSession.mount {[ "theme" := "dark" ]})) !! "theme"
  = ReactClient.localStorage
      (ReactSession.mount {[ "theme" := "dark" ]}) !! "theme" ∧
  ReactClient.localStorage
    (ReactClient.logout
       (ReactSession.mount {[ "theme" := "dark" ]})) !! "theme"
  = ReactClient.localStorage
      (ReactSession.mount {[ "theme" := "dark" ]}) !! "theme".
Proof.
  apply (proj2 (proj2 (proj2 (login_logout_storage
           (ReactSession.mount {[ "theme" := "dark" ]})
           "t" "alice" "t" "alice" "theme"))));
    discriminate.
Defined.

(** ** The clients against the guards *)

Section ClientsAndGuards.
Context `{!Codec}.
Variable environ : gmap string string.

(** The spam detector's guard on a request that carries [Bearer ...]:
    never the 401 for a missing token. *)
Lemma spam_guard_decision_bearer (now : Z) (token : string) :
  AiFullstackViews.guard_decision environ now (bearer token)
  = Raise IndexError ∨
  AiFullstackViews.guard_decision environ now (bearer token)
  = Ok (inl AiFullstackApp.invalid_token) ∨
  ∃ u, AiFullstackViews.guard_decision environ now (bearer token)
       = Ok (inr u).
Proof.
  unfold AiFullstackViews.guard_decision. rewrite bearer_lookup.
  destruct (split ("Bearer " +:+ token) !! 1%nat) as [part|] eqn:Hs;
    [|by left].
  pose proof (split_part_nonempty _ _ _ Hs) as Hne.
  destruct part as [|c t]; [done|]. simpl.
  destruct (jwt_decode (String c t) _ _ _) as [data|e]; simpl;
    [|right; by left].
  destruct (getitem data "user") as [u|e]; right; [right; by exists u|].
  by left.
Qed.
End ClientsAndGuards.

(** X12.  Which rejections of the guards of this repository log the React
    client out.  Whatever token the client holds, when the [token_required]
    guard of the bcrypt boilerplate does not pass its call to the view the
    reply has status 403, and when the [token_required] guard of the spam
    detector does not pass it the reply has status 403 or the call ends in
    a server error with status 500; in each case [handlePredict] leaves the
    token and the username in the state and in localStorage.  The
    [auth_required] guard of the basic-auth starter answers a call without
    credentials with 401 "Auth required", and on that reply [handlePredict]
    logs the client out; its 403 "Invalid credentials" leaves the token and
    the username where they are. *)
Theorem guard_rejections_keep_session `{!Codec}
    (environ : gmap string string) (f : jval → result response) (now : Z)
    (st : ReactClient.client) :
  (∀ rejection,
     FullstackAiViews.guard_decision now (ReactClient.authorization st)
     = inl rejection →
     let reply := ReactClient.fetch_reply
       (FullstackAiApp.token_required f now (ReactClient.authorization st))
     in
     reply = ReactClient.Response 403 (Some (body rejection)) ∧
     ReactClient.token (ReactClient.handlePredict st reply)
     = ReactClient.token st ∧
     ReactClient.username (ReactClient.handlePredict st reply)
     = ReactClient.username st ∧
     ReactClient.localStorage (ReactClient.handlePredict st reply)
     = ReactClient.localStorage st) ∧
  ((∀ u, AiFullstackViews.guard_decision environ now
           (ReactClient.authorization st) ≠ Ok (inr u)) →
   let reply := ReactClient.fetch_reply
     (AiFullstackApp.token_required environ f now
        (ReactClient.authorization st)) in
   (reply = ReactClient.Response 403
              (Some (body AiFullstackApp.invalid_token)) ∨
    reply = ReactClient.Response 500 None) ∧
   ReactClient.token (ReactClient.handlePredict st reply)
   = ReactClient.token st ∧
   ReactClient.username (ReactClient.handlePredict st reply)
   = ReactClient.username st ∧
   ReactClient.localStorage (ReactClient.handlePredict st reply)
   = ReactClient.localStorage st) ∧
  (∀ (view : result response) (db : database),
     (let reply := ReactClient.fetch_reply
        (BasicAuthApp.auth_required view db None) in
      reply = ReactClient.Response 401
                (Some (body BasicAuthApp.auth_required_response)) ∧
      ReactClient.handlePredict st reply = ReactClient.logout st) ∧
     (∀ auth,
        BasicAuthViews.guard_decision db auth
        = Ok (Some BasicAuthApp.invalid_credentials) →
        let reply := ReactClient.fetch_reply
          (BasicAuthApp.auth_required view db auth) in
        reply = ReactClient.Response 403
                  (Some (body BasicAuthApp.invalid_credentials)) ∧
        ReactClient.token (ReactClient.handlePredict st reply)
        = ReactClient.token st ∧
        ReactClient.username (ReactClient.handlePredict st reply)
        = ReactClient.username st ∧
        ReactClient.localStorage (ReactClient.handlePredict st reply)
        = ReactClient.localStorage st)).
Proof.
  split; [|split].
  - intros rejection Hg. cbv zeta. rewrite token_required_decision, Hg.
    simpl. rewrite (guard_decision_status _ _ _ Hg).
    split; [done|].
    destruct (handlePredict_other_status st 403 (Some (body rejection)))
      as (Ht & Hu & Hls & _); [done|]. by cbv zeta in *.
  - intros Hno. cbv zeta. rewrite spam_token_required_decision.
    unfold ReactClient.authorization in *.
    destruct (spam_guard_decision_bearer environ now
                (default "null" (ReactClient.token st)))
      as [Hg|[Hg|[u Hg]]]; [| |by destruct (Hno u)]; rewrite Hg; simpl.
    + split; [by right|]. done.
    + split; [by left|].
      destruct (handlePredict_other_status st 403
                  (Some (body AiFullstackApp.invalid_token)))
        as (Ht & Hu & Hls & _); [done|]. by cbv zeta in *.
  - intros view db. split; [done|].
    intros auth Hg. cbv zeta. rewrite auth_required_decision, Hg. simpl.
    split; [done|].
    destruct (handlePredict_other_status st 403
                (Some (body BasicAuthApp.invalid_credentials)))
      as (Ht & Hu & Hls & _); [done|]. by cbv zeta in *.
Qed.

Lemma guard_rejections_keep_session_witness :
  ReactClient.token
    (ReactClient.handlePredict Reference.session
       (ReactClient.fetch_reply
          (Reference.guard 1800
             (ReactClient.authorization Reference.session))))
  = ReactClient.token Reference.session ∧
  ReactClient.handlePredict Reference.session
    (ReactClient.fetch_reply
       (BasicAuthApp.auth_required (Reference.whoami (JStr "admin"))
          Reference.empty_store None))
  = ReactClient.logout Reference.session.
Proof.
  split; [|exact (proj2 (proj1 (proj2 (proj2 (@guard_rejections_keep_session
    Reference.codec ∅ Reference.whoami 1800 Reference.session))
    (Reference.whoami (JStr "admin")) Reference.empty_store)))].
  assert (@FullstackAiViews.guard_decision Reference.codec 1800
            (ReactClient.authorization Reference.session)
          = inl FullstackAiApp.token_invalid) as Hg.
  { destruct session_token as (Htoken & _ & _).
    unfold ReactClient.authorization. rewrite Htoken.
    change (default "null" (Some (Reference.login_token 0)))
      with (Reference.login_token 0).
    unfold Reference.login_token. by rewrite guard_decision_issued. }
  exact (proj1 (proj2 (proj1 (@guard_rejections_keep_session
    Reference.codec ∅ Reference.whoami 1800 Reference.session)
    FullstackAiApp.token_invalid Hg))).
Defined.

(** ** The frontend of the bcrypt boilerplate *)

Lemma dashboard_predict_keeps (st : FullstackAiClient.page)
    (r : ReactClient.fetched) :
  FullstackAiClient.token (FullstackAiClient.predict st r)
  = FullstackAiClient.token st ∧
  FullstackAiClient.localStorage (FullstackAiClient.predict st r)
  = FullstackAiClient.localStorage st.
Proof.
  unfold FullstackAiClient.predict. by destruct (axios_post r).
Qed.

(** X13.  Once a token is stored, the frontend of the bcrypt boilerplate
    never lets go of it: after any run of Dashboard calls, whatever the
    replies, the token in the state and in localStorage is unchanged, the
    Dashboard is still shown if it was, and the next call sends the same
    header.  In particular, when the guard rejects the stored token, the
    only effect of a call is one more "Unauthorized" alert. *)
Theorem dashboard_never_drops_token `{!Codec}
    (f : jval → result response) (now : Z) (st : FullstackAiClient.page)
    (replies : list ReactClient.fetched) :
  let st' := foldl FullstackAiClient.predict st replies in
  FullstackAiClient.token st' = FullstackAiClient.token st ∧
  FullstackAiClient.localStorage st' = FullstackAiClient.localStorage st ∧
  FullstackAiClient.shows_dashboard st'
  = FullstackAiClient.shows_dashboard st ∧
  FullstackAiClient.request_headers st'
  = FullstackAiClient.request_headers st ∧
  (∀ rejection,
     FullstackAiViews.guard_decision now
       (FullstackAiClient.request_headers st) = inl rejection →
     FullstackAiClient.predict st
       (ReactClient.fetch_reply
          (FullstackAiApp.token_required f now
             (FullstackAiClient.request_headers st)))
     = {| FullstackAiClient.token := FullstackAiClient.token st;
          FullstackAiClient.output := FullstackAiClient.output st;
          FullstackAiClient.localStorage :=
            FullstackAiClient.localStorage st;
          FullstackAiClient.alerts :=
            FullstackAiClient.alerts st ++ ["Unauthorized"] |}).
Proof.
  cbv zeta.
  assert (FullstackAiClient.token (foldl FullstackAiClient.predict st replies)
          = FullstackAiClient.token st ∧
          FullstackAiClient.localStorage
            (foldl FullstackAiClient.predict st replies)
          = FullstackAiClient.localStorage st) as [Ht Hls].
  { revert st. induction replies as [|r replies IH]; intros st; [done|].
    simpl. destruct (IH (FullstackAiClient.predict st r)) as [-> ->].
    apply dashboard_predict_keeps. }
  split; [done|]. split; [done|].
  split; [unfold FullstackAiClient.shows_dashboard; by rewrite Ht|].
  split; [unfold FullstackAiClient.request_headers; by rewrite Hls|].
  intros rejection Hg. rewrite token_required_decision, Hg. simpl.
  unfold FullstackAiClient.predict. simpl.
  by rewrite (guard_decision_status _ _ _ Hg).
Qed.

(** X14.  The login of the bcrypt boilerplate, backend and frontend
    together: when the login view answers 200, the frontend stores the
    issued token under [token], shows the Dashboard, and its next call
    carries [Bearer] and that token; when the view answers anything else,
    or raises, the frontend keeps its token and localStorage as they were
    and shows one more "Login failed" alert. *)
Theorem login_page_follows_backend `{!Codec, !Bcrypt} (now : Z)
    (db : database) (u : string) (p : option jval)
    (st : FullstackAiClient.page) :
  let reply := FullstackAiApp.login now db u p in
  let st' := FullstackAiClient.login st (ReactClient.fetch_reply reply) in
  (http_status reply = 200 →
   ∃ token,
     reply = Ok (FullstackAiApp.token_response token) ∧
     FullstackAiClient.token st' = Some (JStr token) ∧
     FullstackAiClient.localStorage st' !! "token" = Some token ∧
     FullstackAiClient.shows_dashboard st' = true ∧
     FullstackAiClient.request_headers st' = bearer token) ∧
  (http_status reply ≠ 200 →
   FullstackAiClient.token st' = FullstackAiClient.token st ∧
   FullstackAiClient.localStorage st' = FullstackAiClient.localStorage st ∧
   FullstackAiClient.alerts st'
   = FullstackAiClient.alerts st ++ ["Login failed"]).
Proof.
  cbv zeta.
  assert (∀ token,
    let st' := FullstackAiClient.login st
      (ReactClient.fetch_reply (Ok (FullstackAiApp.token_response token))) in
    token ≠ "" →
    FullstackAiClient.token st' = Some (JStr token) ∧
    FullstackAiClient.localStorage st' !! "token" = Some token ∧
    FullstackAiClient.shows_dashboard st' = true ∧
    FullstackAiClient.request_headers st' = bearer token) as Hok.
  { intros token st' Hne. subst st'.
    unfold FullstackAiClient.login, FullstackAiClient.shows_dashboard,
      FullstackAiClient.request_headers. simpl.
    rewrite !lookup_singleton_eq. simpl. rewrite !lookup_insert_eq.
    split; [done|]. split; [done|]. split; [by destruct token|done]. }
  assert (let st' := FullstackAiClient.login st
            (ReactClient.fetch_reply (Ok FullstackAiApp.invalid_credentials))
          in
          FullstackAiClient.token st' = FullstackAiClient.token st ∧
          FullstackAiClient.localStorage st'
          = FullstackAiClient.localStorage st ∧
          FullstackAiClient.alerts st'
          = FullstackAiClient.alerts st ++ ["Login failed"]) as Hbad by done.
  unfold FullstackAiApp.login, select_by_username.
  destruct (readable db); simpl; [|split; [done|by intros _]].
  destruct (find (has_username u) (users db)) as [user|]; simpl.
  - destruct p as [[p|z]|]; simpl; [|split; [done|by intros _]..].
    destruct (checkpw p (row_password user)) as [[]|e]; simpl.
    + split; [|done]. intros _. eexists. split; [reflexivity|].
      apply Hok. apply jwt_encode_nonempty.
    + split; [done|]. intros _. exact Hbad.
    + split; [done|by intros _].
  - split; [done|]. intros _. exact Hbad.
Qed.

Lemma login_page_follows_backend_witness :
  FullstackAiClient.shows_dashboard
    (FullstackAiClient.login (FullstackAiClient.mount ∅)
       (ReactClient.fetch_reply
          (@FullstackAiApp.login Reference.codec Reference.bcrypt 1000
             Reference.alice_store "alice" (Some (JStr "secret123")))))
  = true ∧
  FullstackAiClient.alerts
    (FullstackAiClient.login (FullstackAiClient.mount ∅)
       (ReactClient.fetch_reply
          (@FullstackAiApp.login Reference.codec Reference.bcrypt 1000
             Reference.alice_store "alice" (Some (JStr "wrongpass")))))
  = FullstackAiClient.alerts (FullstackAiClient.mount ∅)
    ++ ["Login failed"].
Proof.
  split.
  - destruct (proj1 (@login_page_follows_backend Reference.codec
      Reference.bcrypt 1000 Reference.alice_store "alice"
      (Some (JStr "secret123"))
      (FullstackAiClient.mount ∅))) as (token & _ & _ & _ & Hshow & _);
      [reflexivity|exact Hshow].
  - destruct (proj2 (@login_page_follows_backend Reference.codec
      Reference.bcrypt 1000 Reference.alice_store "alice"
      (Some (JStr "wrongpass"))
      (FullstackAiClient.mount ∅))) as (_ & _ & Halerts);
      [discriminate|exact Halerts].
Defined.

(** ** The frontend of the spam-detector app *)

(** X15.  The frontend of the spam-detector app never gets the guard's 401
    "Token is missing": its call always carries an Authorization header, so
    the guard either raises IndexError (status 500), answers 403 "Invalid
    token" or passes the call on.  With no token or an empty token in
    localStorage the header is [Bearer] alone, the guard raises IndexError,
    and the rejected promise leaves the page as it was, still showing
    "N/A". *)
Theorem anonymous_call_is_server_error `{!Codec}
    (environ : gmap string string) (f : jval → result response) (now : Z)
    (storage : gmap string string) :
  let st := AiFullstackClient.mount storage in
  let reply := AiFullstackApp.token_required environ f now
                 (AiFullstackClient.request_headers st) in
  AiFullstackViews.guard_decision environ now
    (AiFullstackClient.request_headers st)
  ≠ Ok (inl AiFullstackApp.token_missing) ∧
  (storage !! "token" = None ∨ storage !! "token" = Some "" →
   reply = Raise IndexError ∧
   http_status reply = 500 ∧
   AiFullstackClient.handlePredict st (ReactClient.fetch_reply reply) = st ∧
   AiFullstackClient.label st = "N/A").
Proof.
  cbv zeta. split.
  - unfold AiFullstackClient.request_headers.
    destruct (spam_guard_decision_bearer environ now
                (AiFullstackClient.token (AiFullstackClient.mount storage)))
      as [Hg|[Hg|[u Hg]]]; by rewrite Hg.
  - intros Hanon.
    assert (AiFullstackClient.mount storage
            = {| AiFullstackClient.text := "";
                 AiFullstackClient.result := Some (JStr "");
                 AiFullstackClient.token := "" |}) as ->.
    { unfold AiFullstackClient.mount. by destruct Hanon as [-> | ->]. }
    done.
Qed.

Lemma anonymous_call_is_server_error_witness :
  Reference.spam_guard 0
    (AiFullstackClient.request_headers (AiFullstackClient.mount ∅))
  = Raise IndexError.
Proof.
  apply (proj2 (@anonymous_call_is_server_error Reference.codec ∅
                  Reference.whoami 0 ∅)).
  by left.
Defined.

(** X16.  The Register form of the spam-detector app never shows the
    backend's "Username already exists": [register_user] sends that text
    with status 400, for which the promise is rejected and nothing is
    caught.  After a registration call the form shows "User registered
    successfully" when the store was reachable and the username new, and
    otherwise the message it showed before. *)
Theorem register_form_message (db : database) (u p : string)
    (message : option jval) :
  AiFullstackClient.handleRegister message
    (ReactClient.fetch_reply (AiFullstackApp.register_user db u p).1)
  = if online db && negb (existsb (has_username u) (users db))
    then Some (JStr "User registered successfully")
    else message.
Proof.
  unfold AiFullstackApp.register_user, insert_user.
  destruct (online db); simpl; [|done].
  by destruct (existsb (has_username u) (users db)).
Qed.

(** X17.  The verdict shown by the spam-detector app, backend and frontend
    together: for a call that the guard passes on a reachable store, the
    page shows "Spam" exactly when the classifier's verdict on the sent
    text (the empty text when the body has none) is 1, and "Ham" for every
    other verdict; a call that is rejected or fails leaves the page as it
    was. *)
Theorem shown_verdict `{!Codec} (environ : gmap string string)
    (model : string → Z) (now : Z) (s : AiFullstackViews.site)
    (headers : gmap string string) (text : option string)
    (st : AiFullstackClient.app) :
  let reply :=
    (AiFullstackViews.api_predict environ model now s headers text).1 in
  let st' := AiFullstackClient.handlePredict st
               (ReactClient.fetch_reply reply) in
  (http_status reply = 200 →
   AiFullstackClient.label st'
   = if bool_decide (model (default "" text) = 1) then "Spam" else "Ham") ∧
  (http_status reply ≠ 200 → st' = st).
Proof.
  cbv zeta. unfold AiFullstackViews.api_predict.
  destruct (AiFullstackViews.guard_decision environ now headers)
    as [[rejection|current_user]|e] eqn:Hg; simpl.
  - destruct (spam_guard_decision_status _ _ _ _ Hg) as [Hs|Hs];
      rewrite Hs; split; done.
  - unfold AiFullstackViews.predict.
    destruct (online (AiFullstackViews.accounts s)); simpl; [|done].
    split; [|done]. intros _.
    unfold AiFullstackClient.label, AiFullstackClient.handlePredict. simpl.
    rewrite lookup_singleton_eq.
    case_bool_decide as Heq; [by rewrite Heq|].
    by destruct (model (default "" text)) as [|[]|].
  - done.
Qed.

Lemma shown_verdict_witness :
  AiFullstackClient.label
    (AiFullstackClient.handlePredict (AiFullstackClient.mount ∅)
       (ReactClient.fetch_reply
          (@AiFullstackViews.api_predict Reference.codec ∅
             (fun text => if bool_decide (text = "") then 0 else 1) 5
             {| AiFullstackViews.accounts := Reference.alice_store;
                AiFullstackViews.logs := [] |}
             (bearer Reference.spam_token) (Some "win a prize")).1))
  = "Spam".
Proof.
  assert (http_status
            (@AiFullstackViews.api_predict Reference.codec ∅
               (fun text => if bool_decide (text = "") then 0 else 1) 5
               {| AiFullstackViews.accounts := Reference.alice_store;
                  AiFullstackViews.logs := [] |}
               (bearer Reference.spam_token) (Some "win a prize")).1
          = 200) as Hok.
  { unfold AiFullstackViews.api_predict.
    pose proof (@spam_token_required_decision Reference.codec ∅
      Reference.whoami 5 (bearer Reference.spam_token)) as Hdec.
    unfold Reference.spam_token in *. rewrite spam_guard_issued in Hdec.
    destruct (AiFullstackViews.guard_decision ∅ 5 _) as [[r|v]|e] eqn:Hg.
    - apply Ok_inj in Hdec. apply (f_equal status) in Hdec.
      destruct (spam_guard_decision_status _ _ _ _ Hg) as [Hs|Hs];
        rewrite Hs in Hdec; discriminate.
    - reflexivity.
    - discriminate. }
  exact (proj1 (@shown_verdict Reference.codec ∅
                  (fun text => if bool_decide (text = "") then 0 else 1) 5
                  {| AiFullstackViews.accounts := Reference.alice_store;
                     AiFullstackViews.logs := [] |}
                  (bearer Reference.spam_token) (Some "win a prize")
                  (AiFullstackClient.mount ∅)) Hok).
Defined.

(** X18.  The frontend of the bcrypt boilerplate never gets the guard's
    "Token is missing": its Dashboard call always carries an Authorization
    header, so the guard answers "Token is invalid" or passes the call on.
    With nothing stored under [token] the header is [Bearer null], which
    the guard answers with "Token is invalid" at every clock reading. *)
Theorem dashboard_call_never_missing `{!Codec}
    (f : jval → result response) (now : Z)
    (st : FullstackAiClient.page) :
  FullstackAiViews.guard_decision now (FullstackAiClient.request_headers st)
  ≠ inl FullstackAiApp.token_missing ∧
  (FullstackAiClient.localStorage st !! "token" = None →
   FullstackAiApp.token_required f now
     (FullstackAiClient.request_headers st)
   = Ok FullstackAiApp.token_invalid).
Proof.
  split.
  - unfold FullstackAiViews.guard_decision,
      FullstackAiClient.request_headers.
    rewrite bearer_lookup. simpl.
    destruct (FullstackAiApp.current_user_of now _); [done|].
    intros Heq. assert (FullstackAiApp.token_invalid
      = FullstackAiApp.token_missing) as Habs by congruence.
    by apply missing_is_not_invalid.
  - intros Hnone. unfold FullstackAiClient.request_headers.
    rewrite Hnone. simpl. rewrite guard_bearer by done.
    by rewrite jwt_decode_no_dot.
Qed.

Lemma dashboard_call_never_missing_witness :
  Reference.guard 0
    (FullstackAiClient.request_headers (FullstackAiClient.mount ∅))
  = Ok FullstackAiApp.token_invalid.
Proof.
  apply (proj2 (@dashboard_call_never_missing Reference.codec
                  Reference.whoami 0 (FullstackAiClient.mount ∅))).
  reflexivity.
Defined.

(** X19.  The login of the spam-detector app, backend and frontend
    together: when the login view answers 200, [handleLogin] stores the
    issued token, and the call of an App mounted on that localStorage is
    passed by the guard to the view as the user who logged in, at every
    clock reading; when the view answers anything else, or raises, the
    promise is rejected and localStorage stays as it was. *)
Theorem spam_login_then_call `{!Codec} (environ : gmap string string)
    (f : jval → result response) (now0 : Z) (db : database) (u p : string)
    (storage : gmap string string) :
  let reply := AiFullstackApp.login environ now0 db u p in
  let storage' :=
    (AiFullstackClient.handleLogin storage
       (ReactClient.fetch_reply reply)).1 in
  (http_status reply = 200 →
   storage' !! "token" = Some (AiFullstackApp.create_token environ u) ∧
   ∀ now,
     AiFullstackApp.token_required environ f now
       (AiFullstackClient.request_headers
          (AiFullstackClient.mount storage'))
     = f (JStr u)) ∧
  (http_status reply ≠ 200 → storage' = storage).
Proof.
  cbv zeta. unfold AiFullstackApp.login, select_by_credentials.
  destruct (readable db); simpl; [|done].
  destruct (find (has_credentials u p) (users db)) as [user|]; simpl;
    [|done].
  split; [|done]. intros _.
  rewrite !lookup_singleton_eq. simpl. rewrite lookup_insert_eq.
  split; [done|]. intros now.
  unfold AiFullstackClient.request_headers, AiFullstackClient.mount. simpl.
  rewrite lookup_insert_eq. simpl. apply spam_guard_issued.
Qed.

Lemma spam_login_then_call_witness :
  Reference.spam_guard 99
    (AiFullstackClient.request_headers
       (AiFullstackClient.mount
          (AiFullstackClient.handleLogin ∅
             (ReactClient.fetch_reply
                (@AiFullstackApp.login Reference.codec ∅ 0
                   {| online := true;
                      locked := false;
                      users := [{| row_id := 1; row_username := "alice";
                                   row_password := "secret123" |}] |}
                   "alice" "secret123"))).1))
  = Reference.whoami (JStr "alice").
Proof.
  apply (proj1 (@spam_login_then_call Reference.codec ∅ Reference.whoami 0
                  {| online := true;
                     locked := false;
                     users := [{| row_id := 1; row_username := "alice";
                                  row_password := "secret123" |}] |}
                  "alice" "secret123" ∅)).
  reflexivity.
Defined.
